(** * Login handshake of the Extreme ERS drivers (netmiko/extreme/extreme_ers_ssh.py)

    A shallow embedding of [ExtremeErsSSH.special_login_handler] and
    [ExtremeErsTelnet.telnet_login].  The raw channel, the sleeps and the
    connection close are effects; they are threaded through a small
    monad of its own: the pending channel input is its state, an exception or
    a result is what a computation ends with, and every effect performed is
    appended, in order, to a trace. *)

From Stdlib Require Import String Ascii List ZArith Lia Bool Arith.
Import ListNotations.
Open Scope string_scope.
Open Scope nat_scope.

(* ================================================================= *)
(** ** Strings *)

(** Python [str] values are modelled as [string]; a character is a code point
    below 256. *)
Definition chr (n : nat) : string := String (ascii_of_nat n) EmptyString.

Definition LF : string := chr 10.
Definition CR : string := chr 13.
Definition TAB : string := chr 9.

(** [needle in hay] *)
Fixpoint contains (needle hay : string) : bool :=
  String.prefix needle hay
  || match hay with
     | EmptyString => false
     | String _ rest => contains needle rest
     end.

(** Truth value of a [str]: non-empty. *)
Definition truthy (s : string) : bool :=
  match s with
  | EmptyString => false
  | String _ _ => true
  end.

(* ================================================================= *)
(** ** Regular expressions: the fragment of [re] the driver's patterns use *)

Module Re.

Inductive regex : Type :=
| Lit (c : ascii)            (* an ordinary character *)
| OneOf (cs : list ascii)    (* a set [...] *)
| Space                      (* \s *)
| Eol                        (* $ *)
| Seq (r1 r2 : regex)
| Star (r : regex).

Record flags : Type := { IGNORECASE : bool; MULTILINE : bool }.

Definition I : flags := {| IGNORECASE := true; MULTILINE := false |}.
Definition M : flags := {| IGNORECASE := false; MULTILINE := true |}.

(** Simple lower-casing on code points below 256. *)
Definition lower (a : ascii) : ascii :=
  let n := nat_of_ascii a in
  if ((65 <=? n) && (n <=? 90))
     || ((192 <=? n) && (n <=? 222) && negb (n =? 215))
  then ascii_of_nat (n + 32) else a.

Definition chr_eq (fl : flags) (c a : ascii) : bool :=
  if IGNORECASE fl then Ascii.eqb (lower c) (lower a) else Ascii.eqb c a.

(** [\s] on [str]: the characters for which [str.isspace] holds. *)
Definition is_space (a : ascii) : bool :=
  let n := nat_of_ascii a in
  ((9 <=? n) && (n <=? 13)) || ((28 <=? n) && (n <=? 32))
  || (n =? 133) || (n =? 160).

(** [$]: at the end of the string, before a newline that ends the string,
    and with [MULTILINE] before every newline. *)
Definition at_eol (fl : flags) (s : string) : bool :=
  match s with
  | EmptyString => true
  | String a rest =>
      Ascii.eqb a (ascii_of_nat 10)
      && (MULTILINE fl || negb (truthy rest))
  end.

(** [rmatch fl r s k]: some match of [r] at the start of [s] leaves a rest
    that [k] accepts. *)
Fixpoint rmatch (fl : flags) (r : regex) (s : string)
         (k : string -> bool) : bool :=
  match r with
  | Lit c =>
      match s with
      | String a rest => chr_eq fl c a && k rest
      | EmptyString => false
      end
  | OneOf cs =>
      match s with
      | String a rest => existsb (fun c => chr_eq fl c a) cs && k rest
      | EmptyString => false
      end
  | Space =>
      match s with
      | String a rest => is_space a && k rest
      | EmptyString => false
      end
  | Eol => at_eol fl s && k s
  | Seq r1 r2 => rmatch fl r1 s (fun s' => rmatch fl r2 s' k)
  | Star r' =>
      (fix iter (n : nat) (s : string) {struct n} : bool :=
         k s
         || match n with
            | O => false
            | S n' =>
                rmatch fl r' s
                  (fun s' => (String.length s' <? String.length s)
                             && iter n' s')
            end) (String.length s) s
  end.

(** [re.search(pattern, s, flags) is not None] *)
Fixpoint search (r : regex) (s : string) (fl : flags) : bool :=
  rmatch fl r s (fun _ => true)
  || match s with
     | EmptyString => false
     | String _ rest => search r rest fl
     end.

(** A word, character by character. *)
Fixpoint word (s : string) (k : regex) : regex :=
  match s with
  | EmptyString => k
  | String a rest => Seq (Lit a) (word rest k)
  end.

End Re.

(** The default patterns of [telnet_login]. *)
Definition default_pri_prompt_terminator : Re.regex :=     (* r"#\s*$" *)
  Re.Seq (Re.Lit "#") (Re.Seq (Re.Star Re.Space) Re.Eol).
Definition default_alt_prompt_terminator : Re.regex :=     (* r">\s*$" *)
  Re.Seq (Re.Lit ">") (Re.Seq (Re.Star Re.Space) Re.Eol).
Definition default_username_pattern : Re.regex :=   (* r"[Ee]nter\s*[Uu]sername" *)
  Re.Seq (Re.OneOf ["E"; "e"]%char)
    (Re.word "nter"
       (Re.Seq (Re.Star Re.Space)
          (Re.Seq (Re.OneOf ["U"; "u"]%char) (Re.word "sernam" (Re.Lit "e"))))).
Definition default_pwd_pattern : Re.regex :=        (* r"[Ee]nter\s*[Pp]assword" *)
  Re.Seq (Re.OneOf ["E"; "e"]%char)
    (Re.word "nter"
       (Re.Seq (Re.Star Re.Space)
          (Re.Seq (Re.OneOf ["P"; "p"]%char) (Re.word "asswor" (Re.Lit "d"))))).

(* ================================================================= *)
(** ** The effects: channel, sleeps, close *)

(** What one [read_channel] call gives: a fragment (possibly empty), or the
    end of the stream, which [read_channel] reports by raising [EOFError]. *)
Inductive read_result : Type :=
| Data (fragment : string)
| EOF.

(** The place in the source a [write_channel] call comes from. *)
Inductive site : Type :=
| AtCtrlY        (* the answer to "Ctrl-Y" *)
| AtMenu         (* the answer to the menu *)
| AtTab          (* the tab before the username *)
| AtUsername
| AtPassword
| AtReturn.      (* a bare line terminator *)

Inductive event : Type :=
| EvRead (r : read_result)
| EvWrite (from : site) (data : string)
| EvSleep (tenths : nat)     (* time.sleep(tenths / 10 * delay_factor) *)
| EvClose.                   (* remote_conn.close() *)

Inductive exn : Type :=
| EOFError
| NetmikoAuthenticationException (msg : string).

Inductive res (A : Type) : Type :=
| Ok (a : A)
| Raise (e : exn)
| OutOfFuel.
Arguments Ok {A} a.
Arguments Raise {A} e.
Arguments OutOfFuel {A}.

(** What running a computation gives: how it ended, the channel input still
    pending, and the effects performed, first to last. *)
Record outcome (A : Type) : Type := {
  result : res A;
  pending : list read_result;
  trace : list event
}.
Arguments result {A} o.
Arguments pending {A} o.
Arguments trace {A} o.

Definition M (A : Type) : Type := list read_result -> outcome A.

(** [after evs o]: [o], performed after the effects [evs]. *)
Definition after {A} (evs : list event) (o : outcome A) : outcome A :=
  {| result := result o; pending := pending o; trace := evs ++ trace o |}.

Definition ret {A} (a : A) : M A :=
  fun inb => {| result := Ok a; pending := inb; trace := [] |}.

Definition bind {A B} (c : M A) (k : A -> M B) : M B :=
  fun inb =>
    let o := c inb in
    match result o with
    | Ok a => after (trace o) (k a (pending o))
    | Raise e =>
        {| result := Raise e; pending := pending o; trace := trace o |}
    | OutOfFuel =>
        {| result := OutOfFuel; pending := pending o; trace := trace o |}
    end.

Definition raise {A} (e : exn) : M A :=
  fun inb => {| result := Raise e; pending := inb; trace := [] |}.

Definition out_of_fuel {A} : M A :=
  fun inb => {| result := OutOfFuel; pending := inb; trace := [] |}.

(** [try: body  except EOFError: handler] *)
Definition try_except_EOFError {A} (body handler : M A) : M A :=
  fun inb =>
    let o := body inb in
    match result o with
    | Raise EOFError => after (trace o) (handler (pending o))
    | _ => o
    end.

Declare Scope monad_scope.
Delimit Scope monad_scope with monad.
Notation "x <- c ;; k" := (bind c (fun x => k))
  (at level 61, c at next level, right associativity) : monad_scope.
Notation "c ;; k" := (bind c (fun _ => k))
  (at level 61, right associativity) : monad_scope.
Open Scope monad_scope.

Definition perform (e : event) : M unit :=
  fun inb => {| result := Ok tt; pending := inb; trace := [e] |}.

(** Modelled from the spec: [read_channel] of the base connection class,
    which is not in this file.  The read is non-blocking: it takes the next
    pending result, and with nothing pending it gives the empty string; the
    end of the stream is reported by raising [EOFError]. *)
Definition read_channel : M string :=
  fun inb =>
    match inb with
    | [] =>
        {| result := Ok ""; pending := []; trace := [EvRead (Data "")] |}
    | Data s :: rest =>
        {| result := Ok s; pending := rest; trace := [EvRead (Data s)] |}
    | EOF :: rest =>
        {| result := Raise EOFError; pending := rest; trace := [EvRead EOF] |}
    end.

(** Modelled from the spec: [write_channel] of the base connection class,
    which sends the raw bytes and gives nothing back. *)
Definition write_channel (from : site) (data : string) : M unit :=
  perform (EvWrite from data).

(** [time.sleep(tenths / 10 * delay_factor)] *)
Definition sleep (tenths : nat) : M unit :=
  perform (EvSleep tenths).

(** [self.remote_conn.close()] *)
Definition close : M unit :=
  perform EvClose.

Definition when (b : bool) (c : M unit) : M unit :=
  if b then c else ret tt.

(* ================================================================= *)
(** ** The drivers *)

(** The fields of the connection object the drivers read.  [RETURN] and
    [TELNET_RETURN], the line terminators of the two transports, are set by
    the base connection class. *)
Record connection : Type := {
  host : string;
  username : string;
  password : string;
  RETURN : string;
  TELNET_RETURN : string
}.

Definition CTRL_Y : string := chr 25.

(** The locals of [telnet_login] that live across the cycles of its loop. *)
Record locals : Type := {
  i : Z;
  sent_user : bool;
  sent_pass : bool;
  return_msg : string
}.

Section Drivers.

Variable self : connection.

(** *** ExtremeErsSSH.special_login_handler *)

(** One pass through the body of [while i <= 12]; [true] is [break]. *)
Definition ssh_cycle : M bool :=
  output <- read_channel ;;
  if truthy output then
    when (contains "Ctrl-Y" output) (write_channel AtCtrlY CTRL_Y) ;;
    brk <- (if contains "sername" output then
              write_channel AtUsername (username self ++ RETURN self) ;;
              ret false
            else if contains "ssword" output then
              write_channel AtPassword (password self ++ RETURN self) ;;
              ret true
            else ret false) ;;
    if brk : bool then ret true
    else sleep 5 ;; ret false
  else
    write_channel AtReturn (RETURN self) ;;
    sleep 10 ;;
    ret false.

Fixpoint ssh_loop (fuel : nat) (i : Z) : M unit :=
  if (i <=? 12)%Z then
    match fuel with
    | O => out_of_fuel
    | S fuel' =>
        brk <- ssh_cycle ;;
        if brk : bool then ret tt else ssh_loop fuel' (i + 1)%Z
    end
  else ret tt.

Definition special_login_handler : M unit :=
  ssh_loop 13 0%Z.

(** *** ExtremeErsTelnet.telnet_login *)

Variables pri_prompt_terminator alt_prompt_terminator : Re.regex.
Variables username_pattern pwd_pattern : Re.regex.
Variable max_loops : Z.

Definition is_prompt (output : string) : bool :=
  Re.search pri_prompt_terminator output Re.M
  || Re.search alt_prompt_terminator output Re.M.

Definition login_failed {A} : M A :=
  close ;;
  let msg := "Login failed: " ++ host self in
  raise (NetmikoAuthenticationException msg).

(** Lines 86-106: the answers to one fragment; the result is the new
    values of [sent_user] and [sent_pass]. *)
Definition answer (st : locals) (output : string) : M (bool * bool) :=
  when (contains "Ctrl-Y" output)
       (write_channel AtCtrlY (chr 25 ++ LF)) ;;
  when (contains "Use arrow keys to highlight option" output)
       (write_channel AtMenu ("c" ++ LF)) ;;
  sent_user' <- (if Re.search username_pattern output Re.I
                    && negb (sent_user st) then
                   write_channel AtTab TAB ;;
                   sleep 1 ;;
                   write_channel AtUsername
                     (username self ++ TELNET_RETURN self) ;;
                   sleep 10 ;;
                   ret true
                 else ret (sent_user st)) ;;
  sent_pass' <- (if Re.search pwd_pattern output Re.I
                    && negb (sent_pass st) then
                   write_channel AtPassword
                     (password self ++ TELNET_RETURN self) ;;
                   sleep 5 ;;
                   ret true
                 else ret (sent_pass st)) ;;
  ret (sent_user', sent_pass').

(** The body of the [try]: [inl] is [return return_msg], [inr] the locals
    with which the loop condition is tested next. *)
Definition telnet_cycle (st : locals) : M (string + locals) :=
  output <- read_channel ;;
  let return_msg' := return_msg st ++ output in
  sent <- answer st output ;;
  if is_prompt output then ret (inl return_msg')
  else
    sleep 5 ;;
    ret (inr {| i := (i st + 1)%Z;
                sent_user := fst sent;
                sent_pass := snd sent;
                return_msg := return_msg' |}).

(** Lines 122-134. *)
Definition last_try (return_msg0 : string) : M string :=
  write_channel AtReturn (TELNET_RETURN self) ;;
  sleep 5 ;;
  output <- read_channel ;;
  let return_msg' := return_msg0 ++ output in
  if is_prompt output then ret return_msg'
  else login_failed.

Fixpoint telnet_loop (fuel : nat) (st : locals) : M string :=
  if (i st <=? max_loops)%Z then
    match fuel with
    | O => out_of_fuel
    | S fuel' =>
        r <- try_except_EOFError (telnet_cycle st) login_failed ;;
        match r with
        | inl msg => ret msg
        | inr st' => telnet_loop fuel' st'
        end
    end
  else last_try (return_msg st).

Definition start : locals :=
  {| i := 1; sent_user := false; sent_pass := false; return_msg := "" |}.

Definition telnet_login : M string :=
  sleep 10 ;;
  telnet_loop (Z.to_nat max_loops) start.

End Drivers.

(** [telnet_login] called with its default patterns. *)
Definition telnet_login_default (self : connection) (max_loops : Z)
  : M string :=
  telnet_login self default_pri_prompt_terminator
    default_alt_prompt_terminator default_username_pattern
    default_pwd_pattern max_loops.

(** A connection to run the examples on. *)
Definition sw : connection :=
  {| host := "10.0.0.1"; username := "admin"; password := "secret";
     RETURN := LF; TELNET_RETURN := CR ++ LF |}.


(* ================================================================= *)
(** ** Reading a trace *)

Open Scope list_scope.

Definition is_read (e : event) : bool :=
  match e with EvRead _ => true | _ => false end.

Definition is_close (e : event) : bool :=
  match e with EvClose => true | _ => false end.

(** How many times the channel was read, and how many times closed. *)
Definition reads (evs : list event) : nat := length (filter is_read evs).
Definition closes (evs : list event) : nat := length (filter is_close evs).

(** The outbound writes, in order, each with the place it comes from. *)
Fixpoint writes (evs : list event) : list (site * string) :=
  match evs with
  | [] => []
  | EvWrite from data :: rest => (from, data) :: writes rest
  | _ :: rest => writes rest
  end.

Definition site_eqb (a b : site) : bool :=
  match a, b with
  | AtCtrlY, AtCtrlY | AtMenu, AtMenu | AtTab, AtTab
  | AtUsername, AtUsername | AtPassword, AtPassword
  | AtReturn, AtReturn => true
  | _, _ => false
  end.

(** The writes of the username submission (the tab and the username), and
    those of the password submission. *)
Definition user_writes (evs : list event) : list (site * string) :=
  filter (fun w => site_eqb (fst w) AtTab || site_eqb (fst w) AtUsername)
         (writes evs).

Definition pass_writes (evs : list event) : list (site * string) :=
  filter (fun w => site_eqb (fst w) AtPassword) (writes evs).

(** The fragments of a transcript, joined. *)
Definition cat (fragments : list string) : string :=
  fold_right String.append "" fragments.

(* ================================================================= *)
(** ** The cycles of [telnet_login] in closed form

    What a run of cycles that do not end the loop leaves behind: the locals
    and the trace.  The lemmas below derive them from [telnet_cycle]. *)

Section Cycles.

Variable self : connection.
Variables username_pattern pwd_pattern : Re.regex.

(** What a failed login raises. *)
Definition failure : exn :=
  NetmikoAuthenticationException ("Login failed: " ++ host self).

Definition user_due (st : locals) (output : string) : bool :=
  Re.search username_pattern output Re.I && negb (sent_user st).

Definition pass_due (st : locals) (output : string) : bool :=
  Re.search pwd_pattern output Re.I && negb (sent_pass st).

Definition answer_log (st : locals) (output : string) : list event :=
  (if contains "Ctrl-Y" output
   then [EvWrite AtCtrlY (chr 25 ++ LF)] else [])
  ++ (if contains "Use arrow keys to highlight option" output
      then [EvWrite AtMenu ("c" ++ LF)] else [])
  ++ (if user_due st output
      then [EvWrite AtTab TAB; EvSleep 1;
            EvWrite AtUsername (username self ++ TELNET_RETURN self);
            EvSleep 10]
      else [])
  ++ (if pass_due st output
      then [EvWrite AtPassword (password self ++ TELNET_RETURN self);
            EvSleep 5]
      else []).

Definition advance (st : locals) (output : string) : locals :=
  {| i := (i st + 1)%Z;
     sent_user := if user_due st output then true else sent_user st;
     sent_pass := if pass_due st output then true else sent_pass st;
     return_msg := return_msg st ++ output |}.

Definition cycle_log (st : locals) (output : string) : list event :=
  EvRead (Data output) :: answer_log st output ++ [EvSleep 5].

Fixpoint locals_after (st : locals) (fragments : list string) : locals :=
  match fragments with
  | [] => st
  | o :: rest => locals_after (advance st o) rest
  end.

Fixpoint log_of (st : locals) (fragments : list string) : list event :=
  match fragments with
  | [] => []
  | o :: rest => cycle_log st o ++ log_of (advance st o) rest
  end.

End Cycles.

(* ================================================================= *)
(** ** More to read in a trace *)

(** The fragments the reads gave, in order. *)
Fixpoint fragments_read (evs : list event) : list string :=
  match evs with
  | [] => []
  | EvRead (Data o) :: rest => o :: fragments_read rest
  | _ :: rest => fragments_read rest
  end.

(** The sleeps added up, in tenths of [delay_factor] seconds. *)
Fixpoint slept (evs : list event) : nat :=
  match evs with
  | [] => 0
  | EvSleep tenths :: rest => tenths + slept rest
  | _ :: rest => slept rest
  end.

(** A string of characters that [\s] matches. *)
Fixpoint all_space (s : string) : bool :=
  match s with
  | EmptyString => true
  | String c rest => Re.is_space c && all_space rest
  end.

(** The cycles of [special_login_handler] on fragments that do not end its
    loop: their traces, one after the other. *)
Definition ssh_log (self : connection) (fragments : list string)
  : list event :=
  flat_map (fun o => trace (ssh_cycle self [Data o])) fragments.

(** The fragments on which a cycle of [special_login_handler] goes on: the
    [if] on "sername" is taken, or the [elif] on "ssword" is not. *)
Definition goes_on (o : string) : Prop :=
  contains "sername" o = true \/ contains "ssword" o = false.

(* ================================================================= *)
(** ** Traces *)

(** Unfolds the monad in a straight-line computation. *)
Ltac run :=
  unfold bind, when, write_channel, sleep, close, perform, ret, raise,
    out_of_fuel, try_except_EOFError, after;
  simpl.

Lemma reads_app (a b : list event) : reads (a ++ b) = reads a + reads b.
Proof. unfold reads. now rewrite filter_app, length_app. Qed.

Lemma closes_app (a b : list event) : closes (a ++ b) = closes a + closes b.
Proof. unfold closes. now rewrite filter_app, length_app. Qed.

Lemma writes_app (a b : list event) : writes (a ++ b) = writes a ++ writes b.
Proof.
  induction a as [|e a IH]; simpl; [reflexivity|].
  destruct e; simpl; now rewrite IH.
Qed.

Lemma user_writes_app (a b : list event) :
  user_writes (a ++ b) = user_writes a ++ user_writes b.
Proof. unfold user_writes. now rewrite writes_app, filter_app. Qed.

Lemma pass_writes_app (a b : list event) :
  pass_writes (a ++ b) = pass_writes a ++ pass_writes b.
Proof. unfold pass_writes. now rewrite writes_app, filter_app. Qed.

Lemma after_nil {A} (o : outcome A) : after [] o = o.
Proof. now destruct o. Qed.

Lemma after_after {A} (a b : list event) (o : outcome A) :
  after a (after b o) = after (a ++ b) o.
Proof. unfold after; simpl. now rewrite app_assoc. Qed.

(** The empty channel reads as one empty fragment. *)
Lemma read_channel_nil : read_channel [] = read_channel [Data ""].
Proof. reflexivity. Qed.

(* ================================================================= *)
(** ** Substrings *)

Lemma prefix_app (a b : string) : String.prefix a (a ++ b)%string = true.
Proof.
  induction a as [|c a IH]; simpl.
  - now destruct b.
  - destruct (ascii_dec c c) as [_|N]; [exact IH | now elim N].
Qed.

Lemma prefix_refl (a : string) : String.prefix a a = true.
Proof.
  induction a as [|c a IH]; simpl; [reflexivity|].
  destruct (ascii_dec c c) as [_|N]; [exact IH | now elim N].
Qed.

Lemma contains_prefix (needle hay : string) :
  String.prefix needle hay = true -> contains needle hay = true.
Proof. intros H. destruct hay; cbn [contains]; now rewrite H. Qed.

Lemma contains_app_r (needle pre : string) :
  contains needle (pre ++ needle)%string = true.
Proof.
  induction pre as [|c pre IH].
  - apply contains_prefix, prefix_refl.
  - cbn [append contains]. rewrite IH. apply orb_true_r.
Qed.

Lemma string_app_assoc (a b c : string) :
  ((a ++ b) ++ c = a ++ (b ++ c))%string.
Proof. induction a as [|x a IH]; simpl; [reflexivity | now rewrite IH]. Qed.

Lemma contains_truthy (needle hay : string) :
  truthy needle = true -> contains needle hay = true -> truthy hay = true.
Proof.
  destruct hay; simpl; [|reflexivity].
  destruct needle; simpl; [discriminate|]. intros _ H. discriminate H.
Qed.

(* ================================================================= *)
(** ** The byte-oriented driver *)

Section SshFacts.

Variable self : connection.

Lemma ssh_cycle_nil : ssh_cycle self [] = ssh_cycle self [Data ""].
Proof. reflexivity. Qed.

Lemma ssh_cycle_eof (rest : list read_result) :
  ssh_cycle self (EOF :: rest)
  = {| result := Raise EOFError; pending := rest; trace := [EvRead EOF] |}.
Proof. reflexivity. Qed.

(** The writes one fragment is answered with, as the source orders them. *)
Lemma ssh_cycle_data (o : string) (rest : list read_result) :
  ssh_cycle self (Data o :: rest)
  = {| result :=
         Ok (truthy o && negb (contains "sername" o)
             && contains "ssword" o);
       pending := rest;
       trace :=
         EvRead (Data o)
         :: (if truthy o then
               (if contains "Ctrl-Y" o
                then [EvWrite AtCtrlY CTRL_Y] else [])
               ++ (if contains "sername" o then
                     [EvWrite AtUsername (username self ++ RETURN self);
                      EvSleep 5]
                   else if contains "ssword" o then
                     [EvWrite AtPassword (password self ++ RETURN self)]
                   else [EvSleep 5])
             else [EvWrite AtReturn (RETURN self); EvSleep 10]) |}.
Proof.
  unfold ssh_cycle. run.
  destruct (truthy o); simpl; [|reflexivity].
  destruct (contains "Ctrl-Y" o), (contains "sername" o),
    (contains "ssword" o); reflexivity.
Qed.

Lemma ssh_cycle_reads (inb : list read_result) :
  reads (trace (ssh_cycle self inb)) = 1.
Proof.
  assert (D : forall o rest,
             reads (trace (ssh_cycle self (Data o :: rest))) = 1).
  { intros o rest. rewrite ssh_cycle_data. simpl trace.
    destruct (truthy o); [|reflexivity].
    destruct (contains "Ctrl-Y" o), (contains "sername" o),
      (contains "ssword" o); reflexivity. }
  destruct inb as [|[o|] rest];
    [rewrite ssh_cycle_nil; apply D | apply D | reflexivity].
Qed.

Lemma ssh_cycle_total (inb : list read_result) :
  result (ssh_cycle self inb) <> OutOfFuel.
Proof.
  destruct inb as [|[o|] rest];
    [rewrite ssh_cycle_nil, ssh_cycle_data
    |rewrite ssh_cycle_data|rewrite ssh_cycle_eof]; discriminate.
Qed.

Lemma ssh_loop_over (fuel : nat) (i : Z) (inb : list read_result) :
  (12 < i)%Z ->
  ssh_loop self fuel i inb
  = {| result := Ok tt; pending := inb; trace := [] |}.
Proof.
  intros H. destruct fuel; simpl;
    (destruct (Z.leb_spec i 12); [lia | reflexivity]).
Qed.

Lemma ssh_loop_continue (fuel : nat) (i : Z) (inb : list read_result) :
  (i <= 12)%Z ->
  result (ssh_cycle self inb) = Ok false ->
  ssh_loop self (S fuel) i inb
  = after (trace (ssh_cycle self inb))
          (ssh_loop self fuel (i + 1) (pending (ssh_cycle self inb))).
Proof.
  intros H E. simpl.
  destruct (Z.leb_spec i 12); [|lia].
  unfold bind at 1. cbv zeta. now rewrite E.
Qed.

Lemma ssh_loop_break (fuel : nat) (i : Z) (inb : list read_result) :
  (i <= 12)%Z ->
  result (ssh_cycle self inb) = Ok true ->
  ssh_loop self (S fuel) i inb
  = {| result := Ok tt; pending := pending (ssh_cycle self inb);
       trace := trace (ssh_cycle self inb) |}.
Proof.
  intros H E. simpl.
  destruct (Z.leb_spec i 12); [|lia].
  unfold bind at 1. cbv zeta. rewrite E.
  unfold after, ret; simpl. now rewrite app_nil_r.
Qed.

Lemma ssh_loop_raise (fuel : nat) (i : Z) (inb : list read_result)
      (e : exn) :
  (i <= 12)%Z ->
  result (ssh_cycle self inb) = Raise e ->
  ssh_loop self (S fuel) i inb
  = {| result := Raise e; pending := pending (ssh_cycle self inb);
       trace := trace (ssh_cycle self inb) |}.
Proof.
  intros H E. simpl.
  destruct (Z.leb_spec i 12); [|lia].
  unfold bind at 1. cbv zeta. now rewrite E.
Qed.

(** The loop runs at most one cycle per value of [i] up to 12, and with
    that much fuel it ends by itself. *)
Lemma ssh_loop_bound (fuel : nat) :
  forall (i : Z) (inb : list read_result),
    reads (trace (ssh_loop self fuel i inb)) <= Z.to_nat (13 - i)
    /\ (Z.to_nat (13 - i) <= fuel ->
        result (ssh_loop self fuel i inb) <> OutOfFuel).
Proof.
  induction fuel as [|fuel IH]; intros i inb.
  - destruct (Z.leb_spec i 12) as [L|G].
    + split; [|intros F; exfalso; lia].
      cbn [ssh_loop]. destruct (Z.leb_spec i 12); [|lia].
      apply Nat.le_0_l.
    + rewrite ssh_loop_over by lia. split; [apply Nat.le_0_l|discriminate].
  - destruct (Z.leb_spec i 12) as [L|G].
    + destruct (result (ssh_cycle self inb)) as [[|]|e|] eqn:E.
      * rewrite ssh_loop_break by assumption. cbn [after trace result].
        rewrite ssh_cycle_reads. split; [lia|discriminate].
      * rewrite ssh_loop_continue by assumption. cbn [after trace result].
        rewrite reads_app, ssh_cycle_reads.
        destruct (IH (i + 1)%Z (pending (ssh_cycle self inb))) as [B T].
        split; [lia|]. intros F. apply T. lia.
      * rewrite (ssh_loop_raise _ _ _ e) by assumption. cbn [after trace result].
        rewrite ssh_cycle_reads. split; [lia|discriminate].
      * now elim (ssh_cycle_total inb).
    + rewrite ssh_loop_over by lia. split; [apply Nat.le_0_l|discriminate].
Qed.

(** A fragment without the password marker: the password is not written
    and the loop goes on. *)
Lemma ssh_cycle_quiet (o : string) (rest : list read_result) :
  contains "ssword" o = false ->
  result (ssh_cycle self (Data o :: rest)) = Ok false
  /\ pending (ssh_cycle self (Data o :: rest)) = rest
  /\ pass_writes (trace (ssh_cycle self (Data o :: rest))) = [].
Proof.
  intros H. rewrite ssh_cycle_data. cbn [result pending trace].
  rewrite H, andb_false_r. repeat split.
  destruct (truthy o), (contains "Ctrl-Y" o), (contains "sername" o);
    reflexivity.
Qed.

Lemma ssh_loop_no_password (fuel : nat) :
  forall (i : Z) (frags : list string),
    Forall (fun o => contains "ssword" o = false) frags ->
    Z.to_nat (13 - i) <= fuel ->
    result (ssh_loop self fuel i (map Data frags)) = Ok tt
    /\ reads (trace (ssh_loop self fuel i (map Data frags)))
       = Z.to_nat (13 - i)
    /\ pass_writes (trace (ssh_loop self fuel i (map Data frags))) = [].
Proof.
  induction fuel as [|fuel IH]; intros i frags Hq Hf.
  - rewrite ssh_loop_over by lia. cbn [result trace].
    repeat split. change (reads []) with 0. lia.
  - destruct (Z.leb_spec i 12) as [L|G].
    2:{ rewrite ssh_loop_over by lia. cbn [result trace].
        repeat split. change (reads []) with 0. lia. }
    assert (C : exists o rest,
               ssh_cycle self (map Data frags)
               = ssh_cycle self (Data o :: map Data rest)
               /\ contains "ssword" o = false
               /\ Forall (fun o => contains "ssword" o = false) rest).
    { destruct frags as [|o rest].
      - exists ""%string, []. repeat split; auto.
      - exists o, rest. inversion Hq; subst. repeat split; auto. }
    destruct C as (o & rest & Ec & Ho & Hrest).
    destruct (ssh_cycle_quiet o (map Data rest) Ho) as (Er & Ep & Ew).
    rewrite <- Ec in Er, Ep, Ew.
    rewrite ssh_loop_continue by assumption.
    cbn [after result trace]. rewrite Ep.
    destruct (IH (i + 1)%Z rest Hrest) as (R & N & W); [lia|].
    rewrite reads_app, pass_writes_app, ssh_cycle_reads, R, N, W, Ew.
    repeat split. lia.
Qed.

End SshFacts.

(* ================================================================= *)
(** ** The line-oriented driver *)

Section TelnetFacts.

Variable self : connection.
Variables pri_prompt_terminator alt_prompt_terminator : Re.regex.
Variables username_pattern pwd_pattern : Re.regex.
Variable max_loops : Z.

Local Abbreviation is_prompt' :=
  (is_prompt pri_prompt_terminator alt_prompt_terminator).
Local Abbreviation answer' := (answer self username_pattern pwd_pattern).
Local Abbreviation telnet_cycle' :=
  (telnet_cycle self pri_prompt_terminator alt_prompt_terminator
     username_pattern pwd_pattern).
Local Abbreviation last_try' :=
  (last_try self pri_prompt_terminator alt_prompt_terminator).
Local Abbreviation telnet_loop' :=
  (telnet_loop self pri_prompt_terminator alt_prompt_terminator
     username_pattern pwd_pattern max_loops).
Local Abbreviation telnet_login' :=
  (telnet_login self pri_prompt_terminator alt_prompt_terminator
     username_pattern pwd_pattern max_loops).
Local Abbreviation answer_log' :=
  (answer_log self username_pattern pwd_pattern).
Local Abbreviation advance' := (advance username_pattern pwd_pattern).
Local Abbreviation cycle_log' :=
  (cycle_log self username_pattern pwd_pattern).
Local Abbreviation log_of' := (log_of self username_pattern pwd_pattern).
Local Abbreviation locals_after' :=
  (locals_after username_pattern pwd_pattern).
Local Abbreviation user_due' := (user_due username_pattern).
Local Abbreviation pass_due' := (pass_due pwd_pattern).

Lemma answer_run (st : locals) (o : string) (inb : list read_result) :
  answer' st o inb
  = {| result := Ok (sent_user (advance' st o), sent_pass (advance' st o));
       pending := inb;
       trace := answer_log' st o |}.
Proof.
  unfold answer, answer_log, advance.
  fold (user_due' st o). fold (pass_due' st o). run.
  destruct (contains "Ctrl-Y" o),
    (contains "Use arrow keys to highlight option" o),
    (user_due' st o), (pass_due' st o); reflexivity.
Qed.

Lemma telnet_cycle_data (st : locals) (o : string)
      (rest : list read_result) :
  telnet_cycle' st (Data o :: rest)
  = {| result := Ok (if is_prompt' o then inl (return_msg st ++ o)%string
                     else inr (advance' st o));
       pending := rest;
       trace := EvRead (Data o) :: answer_log' st o
                ++ (if is_prompt' o then [] else [EvSleep 5]) |}.
Proof.
  unfold telnet_cycle.
  unfold bind at 1. cbn [read_channel result pending trace].
  unfold bind at 1. rewrite answer_run. cbn [result pending trace].
  destruct (is_prompt' o); run; now rewrite ?app_nil_r.
Qed.

Lemma telnet_cycle_eof (st : locals) (rest : list read_result) :
  telnet_cycle' st (EOF :: rest)
  = {| result := Raise EOFError; pending := rest; trace := [EvRead EOF] |}.
Proof. reflexivity. Qed.

Lemma login_failed_run {A} (inb : list read_result) :
  @login_failed self A inb
  = {| result := Raise (failure self); pending := inb; trace := [EvClose] |}.
Proof. reflexivity. Qed.

Lemma last_try_data (msg o : string) (rest : list read_result) :
  last_try' msg (Data o :: rest)
  = {| result := if is_prompt' o then Ok (msg ++ o)%string
                 else Raise (failure self);
       pending := rest;
       trace := [EvWrite AtReturn (TELNET_RETURN self); EvSleep 5;
                 EvRead (Data o)]
                ++ (if is_prompt' o then [] else [EvClose]) |}.
Proof.
  unfold last_try. run.
  destruct (is_prompt' o); reflexivity.
Qed.

Lemma last_try_nil (msg : string) :
  last_try' msg [] = last_try' msg [Data ""].
Proof. reflexivity. Qed.

Lemma last_try_eof (msg : string) (rest : list read_result) :
  last_try' msg (EOF :: rest)
  = {| result := Raise EOFError; pending := rest;
       trace := [EvWrite AtReturn (TELNET_RETURN self); EvSleep 5;
                 EvRead EOF] |}.
Proof. reflexivity. Qed.

(** *** The loop, one test of its condition at a time *)

Lemma telnet_loop_over (fuel : nat) (st : locals) (inb : list read_result) :
  (max_loops < i st)%Z ->
  telnet_loop' fuel st inb = last_try' (return_msg st) inb.
Proof.
  intros H. destruct fuel; cbn [telnet_loop];
    (destruct (Z.leb_spec (i st) max_loops); [lia | reflexivity]).
Qed.

Lemma telnet_loop_zero (st : locals) (inb : list read_result) :
  (i st <= max_loops)%Z ->
  telnet_loop' 0 st inb
  = {| result := OutOfFuel; pending := inb; trace := [] |}.
Proof.
  intros H. cbn [telnet_loop].
  destruct (Z.leb_spec (i st) max_loops); [reflexivity | lia].
Qed.

Lemma telnet_loop_nil (fuel : nat) (st : locals) :
  telnet_loop' (S fuel) st [] = telnet_loop' (S fuel) st [Data ""].
Proof.
  cbn [telnet_loop].
  destruct (i st <=? max_loops)%Z; reflexivity.
Qed.

(** End of stream in a cycle: the login fails there. *)
Lemma telnet_loop_eof (fuel : nat) (st : locals) (rest : list read_result) :
  (i st <= max_loops)%Z ->
  telnet_loop' (S fuel) st (EOF :: rest)
  = {| result := Raise (failure self); pending := rest;
       trace := [EvRead EOF; EvClose] |}.
Proof.
  intros H. cbn [telnet_loop].
  destruct (Z.leb_spec (i st) max_loops); [reflexivity | lia].
Qed.

(** A prompt in a cycle: the login returns there. *)
Lemma telnet_loop_prompt (fuel : nat) (st : locals) (o : string)
      (rest : list read_result) :
  (i st <= max_loops)%Z ->
  is_prompt' o = true ->
  telnet_loop' (S fuel) st (Data o :: rest)
  = {| result := Ok (return_msg st ++ o)%string; pending := rest;
       trace := EvRead (Data o) :: answer_log' st o |}.
Proof.
  intros H P. cbn [telnet_loop].
  destruct (Z.leb_spec (i st) max_loops); [|lia].
  unfold bind at 1, try_except_EOFError.
  rewrite telnet_cycle_data, P. cbn [result pending trace].
  unfold after, ret. cbn [result pending trace].
  now rewrite !app_nil_r.
Qed.

(** Any other fragment: the loop condition is tested again. *)
Lemma telnet_loop_next (fuel : nat) (st : locals) (o : string)
      (rest : list read_result) :
  (i st <= max_loops)%Z ->
  is_prompt' o = false ->
  telnet_loop' (S fuel) st (Data o :: rest)
  = after (cycle_log' st o) (telnet_loop' fuel (advance' st o) rest).
Proof.
  intros H P. cbn [telnet_loop].
  destruct (Z.leb_spec (i st) max_loops); [|lia].
  unfold bind at 1, try_except_EOFError.
  rewrite telnet_cycle_data, P. cbn [result pending trace].
  reflexivity.
Qed.

(** Every run of the loop is one of six shapes; a property that holds of
    each holds of the loop. *)
Lemma telnet_loop_cases (P : nat -> locals -> outcome string -> Prop) :
  (forall fuel st inb,
      (max_loops < i st)%Z -> P fuel st (last_try' (return_msg st) inb)) ->
  (forall st inb,
      (i st <= max_loops)%Z ->
      P 0 st {| result := OutOfFuel; pending := inb; trace := [] |}) ->
  (forall fuel st rest,
      (i st <= max_loops)%Z ->
      P (S fuel) st {| result := Raise (failure self); pending := rest;
                       trace := [EvRead EOF; EvClose] |}) ->
  (forall fuel st o rest,
      (i st <= max_loops)%Z -> is_prompt' o = true ->
      P (S fuel) st {| result := Ok (return_msg st ++ o)%string;
                       pending := rest;
                       trace := EvRead (Data o) :: answer_log' st o |}) ->
  (forall fuel st o out,
      (i st <= max_loops)%Z -> is_prompt' o = false ->
      P fuel (advance' st o) out ->
      P (S fuel) st (after (cycle_log' st o) out)) ->
  forall fuel st inb, P fuel st (telnet_loop' fuel st inb).
Proof.
  intros Hover Hzero Heof Hprompt Hnext.
  induction fuel as [|fuel IH]; intros st inb;
    destruct (Z.leb_spec (i st) max_loops) as [L|G];
    try (rewrite telnet_loop_over by assumption; now apply Hover).
  - rewrite telnet_loop_zero by assumption. now apply Hzero.
  - assert (D : forall o rest,
               P (S fuel) st (telnet_loop' (S fuel) st (Data o :: rest))).
    { intros o rest. destruct (is_prompt' o) eqn:E.
      - rewrite telnet_loop_prompt by assumption. now apply Hprompt.
      - rewrite telnet_loop_next by assumption. apply Hnext; auto. }
    destruct inb as [|[o|] rest].
    + rewrite telnet_loop_nil. apply D.
    + apply D.
    + rewrite telnet_loop_eof by assumption. now apply Heof.
Qed.

(** *** What the answers to one fragment contain *)

Lemma answer_log_reads (st : locals) (o : string) :
  reads (answer_log' st o) = 0.
Proof.
  unfold answer_log.
  destruct (contains "Ctrl-Y" o),
    (contains "Use arrow keys to highlight option" o),
    (user_due' st o), (pass_due' st o); reflexivity.
Qed.

Lemma answer_log_closes (st : locals) (o : string) :
  closes (answer_log' st o) = 0.
Proof.
  unfold answer_log.
  destruct (contains "Ctrl-Y" o),
    (contains "Use arrow keys to highlight option" o),
    (user_due' st o), (pass_due' st o); reflexivity.
Qed.

Lemma answer_log_user (st : locals) (o : string) :
  user_writes (answer_log' st o)
  = if user_due' st o
    then [(AtTab, TAB);
          (AtUsername, (username self ++ TELNET_RETURN self)%string)]
    else [].
Proof.
  unfold answer_log.
  destruct (contains "Ctrl-Y" o),
    (contains "Use arrow keys to highlight option" o),
    (user_due' st o), (pass_due' st o); reflexivity.
Qed.

Lemma answer_log_pass (st : locals) (o : string) :
  pass_writes (answer_log' st o)
  = if pass_due' st o
    then [(AtPassword, (password self ++ TELNET_RETURN self)%string)]
    else [].
Proof.
  unfold answer_log.
  destruct (contains "Ctrl-Y" o),
    (contains "Use arrow keys to highlight option" o),
    (user_due' st o), (pass_due' st o); reflexivity.
Qed.

Lemma cycle_log_reads (st : locals) (o : string) :
  reads (cycle_log' st o) = 1.
Proof.
  unfold cycle_log.
  change (EvRead (Data o) :: answer_log' st o ++ [EvSleep 5])
    with ([EvRead (Data o)] ++ answer_log' st o ++ [EvSleep 5]).
  now rewrite !reads_app, answer_log_reads.
Qed.

Lemma cycle_log_closes (st : locals) (o : string) :
  closes (cycle_log' st o) = 0.
Proof.
  unfold cycle_log.
  change (EvRead (Data o) :: answer_log' st o ++ [EvSleep 5])
    with ([EvRead (Data o)] ++ answer_log' st o ++ [EvSleep 5]).
  now rewrite !closes_app, answer_log_closes.
Qed.

Lemma cycle_log_user (st : locals) (o : string) :
  user_writes (cycle_log' st o) = user_writes (answer_log' st o).
Proof.
  unfold cycle_log.
  change (EvRead (Data o) :: answer_log' st o ++ [EvSleep 5])
    with ([EvRead (Data o)] ++ answer_log' st o ++ [EvSleep 5]).
  rewrite !user_writes_app. cbn. now rewrite app_nil_r.
Qed.

Lemma cycle_log_pass (st : locals) (o : string) :
  pass_writes (cycle_log' st o) = pass_writes (answer_log' st o).
Proof.
  unfold cycle_log.
  change (EvRead (Data o) :: answer_log' st o ++ [EvSleep 5])
    with ([EvRead (Data o)] ++ answer_log' st o ++ [EvSleep 5]).
  rewrite !pass_writes_app. cbn. now rewrite app_nil_r.
Qed.

(** *** The last try *)

Lemma last_try_shape (msg : string) (inb : list read_result) :
  exists (r : read_result) (rest : list read_result),
    (inb = [] /\ r = Data "" /\ rest = [] \/ inb = r :: rest)
    /\ pending (last_try' msg inb) = rest
    /\ trace (last_try' msg inb)
       = [EvWrite AtReturn (TELNET_RETURN self); EvSleep 5; EvRead r]
         ++ match r with
            | Data o => if is_prompt' o then [] else [EvClose]
            | EOF => []
            end
    /\ result (last_try' msg inb)
       = match r with
         | Data o => if is_prompt' o then Ok (msg ++ o)%string
                     else Raise (failure self)
         | EOF => Raise EOFError
         end.
Proof.
  destruct inb as [|[o|] rest].
  - exists (Data ""), []. rewrite last_try_nil, last_try_data. auto.
  - exists (Data o), rest. rewrite last_try_data. auto.
  - exists EOF, rest. rewrite last_try_eof.
    cbn [pending trace result]. rewrite app_nil_r. auto.
Qed.

Lemma last_try_reads (msg : string) (inb : list read_result) :
  reads (trace (last_try' msg inb)) = 1.
Proof.
  destruct (last_try_shape msg inb) as (r & rest & _ & _ & T & _).
  rewrite T. destruct r as [o|]; [destruct (is_prompt' o)|]; reflexivity.
Qed.

Lemma last_try_total (msg : string) (inb : list read_result) :
  result (last_try' msg inb) <> OutOfFuel.
Proof.
  destruct (last_try_shape msg inb) as (r & rest & _ & _ & _ & R).
  rewrite R. destruct r as [o|]; [destruct (is_prompt' o)|]; discriminate.
Qed.

Lemma last_try_user (msg : string) (inb : list read_result) :
  user_writes (trace (last_try' msg inb)) = [].
Proof.
  destruct (last_try_shape msg inb) as (r & rest & _ & _ & T & _).
  rewrite T. destruct r as [o|]; [destruct (is_prompt' o)|]; reflexivity.
Qed.

Lemma last_try_pass (msg : string) (inb : list read_result) :
  pass_writes (trace (last_try' msg inb)) = [].
Proof.
  destruct (last_try_shape msg inb) as (r & rest & _ & _ & T & _).
  rewrite T. destruct r as [o|]; [destruct (is_prompt' o)|]; reflexivity.
Qed.

(** *** Invariants of the loop *)

(** One read for each value of [i] up to [max_loops], and one more; with
    that much fuel the loop ends by itself. *)
Lemma telnet_loop_bound (fuel : nat) (st : locals) (inb : list read_result) :
  reads (trace (telnet_loop' fuel st inb))
  <= Z.to_nat (max_loops - i st + 1) + 1
  /\ (Z.to_nat (max_loops - i st + 1) <= fuel ->
      result (telnet_loop' fuel st inb) <> OutOfFuel).
Proof.
  apply (telnet_loop_cases
           (fun fuel st out =>
              reads (trace out) <= Z.to_nat (max_loops - i st + 1) + 1
              /\ (Z.to_nat (max_loops - i st + 1) <= fuel ->
                  result out <> OutOfFuel))).
  - intros f s b G. rewrite last_try_reads.
    split; [lia | intros _; apply last_try_total].
  - intros s b L. cbn [trace result]. change (reads []) with 0.
    split; [lia | intros F; exfalso; lia].
  - intros f s rest L. cbn [trace result].
    change (reads [EvRead EOF; EvClose]) with 1.
    split; [lia | discriminate].
  - intros f s o rest L _. cbn [trace result].
    change (EvRead (Data o) :: answer_log' s o)
      with ([EvRead (Data o)] ++ answer_log' s o).
    rewrite reads_app, answer_log_reads.
    change (reads [EvRead (Data o)]) with 1.
    split; [lia | discriminate].
  - intros f s o out L _ [B T]. cbn [after trace result].
    rewrite reads_app, cycle_log_reads.
    cbn [advance i] in B, T.
    split; [lia | intros F; apply T; lia].
Qed.

(** The connection is closed once, last, on a failed login, and not at all
    otherwise. *)
Lemma telnet_loop_close (fuel : nat) (st : locals) (inb : list read_result) :
  (forall e, result (telnet_loop' fuel st inb)
             = Raise (NetmikoAuthenticationException e) ->
     NetmikoAuthenticationException e = failure self
     /\ exists evs, trace (telnet_loop' fuel st inb) = evs ++ [EvClose]
                    /\ closes evs = 0)
  /\ ((forall e, result (telnet_loop' fuel st inb)
                 <> Raise (NetmikoAuthenticationException e)) ->
      closes (trace (telnet_loop' fuel st inb)) = 0).
Proof.
  apply (telnet_loop_cases
           (fun _ _ out =>
              (forall e, result out
                         = Raise (NetmikoAuthenticationException e) ->
                 NetmikoAuthenticationException e = failure self
                 /\ exists evs, trace out = evs ++ [EvClose]
                                /\ closes evs = 0)
              /\ ((forall e, result out
                             <> Raise (NetmikoAuthenticationException e)) ->
                  closes (trace out) = 0))).
  - intros f s b G.
    destruct (last_try_shape (return_msg s) b) as (r & rest & _ & _ & T & R).
    rewrite T, R.
    destruct r as [o|]; [destruct (is_prompt' o)|]; split;
      try (intros e E; discriminate E); try (intros _; reflexivity).
    + intros e E. split; [congruence|].
      exists [EvWrite AtReturn (TELNET_RETURN self); EvSleep 5;
              EvRead (Data o)]. auto.
    + intros N. now elim (N ("Login failed: " ++ host self)%string).
  - intros s b L. cbn [trace result].
    split; [intros e E; discriminate E | reflexivity].
  - intros f s rest L. cbn [trace result]. split.
    + intros e E. split; [congruence|]. exists [EvRead EOF]. auto.
    + intros N. now elim (N ("Login failed: " ++ host self)%string).
  - intros f s o rest L _. cbn [trace result].
    split; [intros e E; discriminate E|]. intros _.
    change (EvRead (Data o) :: answer_log' s o)
      with ([EvRead (Data o)] ++ answer_log' s o).
    now rewrite closes_app, answer_log_closes.
  - intros f s o out L _ [F N]. cbn [after trace result]. split.
    + intros e E. destruct (F e E) as (Ee & evs & Et & Ec).
      split; [exact Ee|]. exists (cycle_log' s o ++ evs).
      rewrite Et, app_assoc, closes_app, cycle_log_closes, Ec. auto.
    + intros H. now rewrite closes_app, cycle_log_closes, (N H).
Qed.

(** The username is submitted at most once, and not again once
    [sent_user] is set. *)
Lemma telnet_loop_user (fuel : nat) (st : locals) (inb : list read_result) :
  user_writes (trace (telnet_loop' fuel st inb)) = []
  \/ (sent_user st = false
      /\ user_writes (trace (telnet_loop' fuel st inb))
         = [(AtTab, TAB);
            (AtUsername, (username self ++ TELNET_RETURN self)%string)]).
Proof.
  apply (telnet_loop_cases
           (fun _ st out =>
              user_writes (trace out) = []
              \/ (sent_user st = false
                  /\ user_writes (trace out)
                     = [(AtTab, TAB);
                        (AtUsername,
                         (username self ++ TELNET_RETURN self)%string)]))).
  - intros f s b _. left. apply last_try_user.
  - intros s b _. now left.
  - intros f s rest _. now left.
  - intros f s o rest _ _. cbn [trace].
    change (EvRead (Data o) :: answer_log' s o)
      with ([EvRead (Data o)] ++ answer_log' s o).
    rewrite user_writes_app, answer_log_user. cbn [app].
    change (user_writes [EvRead (Data o)]) with (@nil (site * string)).
    unfold user_due.
    destruct (Re.search username_pattern o Re.I), (sent_user s);
      cbn; auto.
  - intros f s o out _ _ IH. cbn [after trace].
    rewrite user_writes_app, cycle_log_user, answer_log_user.
    cbn [advance sent_user] in IH. revert IH.
    unfold user_due.
    destruct (Re.search username_pattern o Re.I), (sent_user s);
      cbn; intros [E|[E1 E2]]; try discriminate; rewrite ?E, ?E2; auto.
Qed.

(** The password is submitted at most once, and not again once
    [sent_pass] is set. *)
Lemma telnet_loop_pass (fuel : nat) (st : locals) (inb : list read_result) :
  pass_writes (trace (telnet_loop' fuel st inb)) = []
  \/ (sent_pass st = false
      /\ pass_writes (trace (telnet_loop' fuel st inb))
         = [(AtPassword, (password self ++ TELNET_RETURN self)%string)]).
Proof.
  apply (telnet_loop_cases
           (fun _ st out =>
              pass_writes (trace out) = []
              \/ (sent_pass st = false
                  /\ pass_writes (trace out)
                     = [(AtPassword,
                         (password self ++ TELNET_RETURN self)%string)]))).
  - intros f s b _. left. apply last_try_pass.
  - intros s b _. now left.
  - intros f s rest _. now left.
  - intros f s o rest _ _. cbn [trace].
    change (EvRead (Data o) :: answer_log' s o)
      with ([EvRead (Data o)] ++ answer_log' s o).
    rewrite pass_writes_app, answer_log_pass. cbn [app].
    change (pass_writes [EvRead (Data o)]) with (@nil (site * string)).
    unfold pass_due.
    destruct (Re.search pwd_pattern o Re.I), (sent_pass s);
      cbn; auto.
  - intros f s o out _ _ IH. cbn [after trace].
    rewrite pass_writes_app, cycle_log_pass, answer_log_pass.
    cbn [advance sent_pass] in IH. revert IH.
    unfold pass_due.
    destruct (Re.search pwd_pattern o Re.I), (sent_pass s);
      cbn; intros [E|[E1 E2]]; try discriminate; rewrite ?E, ?E2; auto.
Qed.

(** *** Cycles that do not end the loop *)

Lemma locals_after_i (pre : list string) :
  forall st, i (locals_after' st pre) = (i st + Z.of_nat (length pre))%Z.
Proof.
  induction pre as [|o pre IH]; intros st.
  - cbn [locals_after length]. lia.
  - cbn [locals_after length]. rewrite IH. cbn [advance i]. lia.
Qed.

Lemma locals_after_msg (pre : list string) :
  forall st,
    return_msg (locals_after' st pre) = (return_msg st ++ cat pre)%string.
Proof.
  induction pre as [|o pre IH]; intros st; cbn [locals_after cat fold_right].
  - clear. induction (return_msg st) as [|c s IHs]; simpl; congruence.
  - rewrite IH. cbn [advance return_msg]. apply string_app_assoc.
Qed.

Lemma log_of_reads (pre : list string) :
  forall st, reads (log_of' st pre) = length pre.
Proof.
  induction pre as [|o pre IH]; intros st; cbn [log_of length];
    [reflexivity|].
  now rewrite reads_app, cycle_log_reads, IH.
Qed.

Lemma log_of_closes (pre : list string) :
  forall st, closes (log_of' st pre) = 0.
Proof.
  induction pre as [|o pre IH]; intros st; cbn [log_of]; [reflexivity|].
  now rewrite closes_app, cycle_log_closes, IH.
Qed.

(** Up to the moment [sent_user] is set, the username was not submitted;
    from then on it was, once. *)
Lemma log_of_user (pre : list string) :
  forall st,
    sent_user st = false ->
    user_writes (log_of' st pre)
    = if sent_user (locals_after' st pre)
      then [(AtTab, TAB);
            (AtUsername, (username self ++ TELNET_RETURN self)%string)]
      else [].
Proof.
  assert (K : forall pre st,
             sent_user st = true ->
             sent_user (locals_after' st pre) = true
             /\ user_writes (log_of' st pre) = []).
  { clear pre. induction pre as [|o pre IH]; intros st E;
      cbn [locals_after log_of]; [auto|].
    destruct (IH (advance' st o)) as [A B].
    - cbn [advance sent_user]. now destruct (user_due' st o).
    - rewrite user_writes_app, cycle_log_user, answer_log_user, B.
      unfold user_due. rewrite E, andb_false_r. auto. }
  induction pre as [|o pre IH]; intros st E; cbn [locals_after log_of].
  - now rewrite E.
  - rewrite user_writes_app, cycle_log_user, answer_log_user.
    destruct (user_due' st o) eqn:D.
    + destruct (K pre (advance' st o)) as [A B].
      * cbn [advance sent_user]. now rewrite D.
      * now rewrite A, B.
    + rewrite IH; [reflexivity|].
      cbn [advance sent_user]. now rewrite D.
Qed.

Lemma telnet_loop_skip (pre : list string) :
  forall (fuel : nat) (st : locals) (rest : list read_result),
    Forall (fun o => is_prompt' o = false) pre ->
    (Z.of_nat (length pre) <= Z.max 0 (max_loops - i st + 1))%Z ->
    telnet_loop' (length pre + fuel) st (map Data pre ++ rest)
    = after (log_of' st pre)
            (telnet_loop' fuel (locals_after' st pre) rest).
Proof.
  induction pre as [|o pre IH]; intros fuel st rest Hq Hi.
  - cbn [length map app log_of locals_after Nat.add].
    now rewrite after_nil.
  - inversion Hq as [|? ? Ho Hpre]; subst.
    cbn [length] in Hi.
    change (length (o :: pre) + fuel) with (S (length pre + fuel)).
    change (map Data (o :: pre) ++ rest)
      with (Data o :: (map Data pre ++ rest)).
    rewrite telnet_loop_next by (assumption || lia).
    rewrite IH by (assumption || (cbn [advance i]; lia)).
    rewrite after_after. reflexivity.
Qed.

Lemma telnet_login_run (ch : list read_result) :
  telnet_login' ch
  = after [EvSleep 10] (telnet_loop' (Z.to_nat max_loops) start ch).
Proof. reflexivity. Qed.

(** Fragments that are no prompt, fewer than [max_loops]: the loop is then
    at the test of its condition, which holds. *)
Lemma telnet_login_reach (pre : list string) (rest : list read_result) :
  Forall (fun o => is_prompt' o = false) pre ->
  (Z.of_nat (length pre) < max_loops)%Z ->
  exists fuel,
    telnet_login' (map Data pre ++ rest)
    = after (EvSleep 10 :: log_of' start pre)
            (telnet_loop' (S fuel) (locals_after' start pre) rest)
    /\ (i (locals_after' start pre) <= max_loops)%Z.
Proof.
  intros Hq Hn.
  exists (Z.to_nat max_loops - length pre - 1).
  rewrite telnet_login_run.
  replace (Z.to_nat max_loops)
    with (length pre + S (Z.to_nat max_loops - length pre - 1)) at 1 by lia.
  rewrite telnet_loop_skip by (assumption || (cbn [start i]; lia)).
  rewrite after_after. split; [reflexivity|].
  rewrite locals_after_i. cbn [start i]. lia.
Qed.

(** As many fragments that are no prompt as the loop has cycles: what is
    left is the last try. *)
Lemma telnet_login_exhaust (pre : list string) (rest : list read_result) :
  Forall (fun o => is_prompt' o = false) pre ->
  length pre = Z.to_nat max_loops ->
  telnet_login' (map Data pre ++ rest)
  = after (EvSleep 10 :: log_of' start pre) (last_try' (cat pre) rest).
Proof.
  intros Hq Hn. rewrite telnet_login_run.
  replace (Z.to_nat max_loops) with (length pre + 0) by (clear Hq; lia).
  rewrite telnet_loop_skip by (assumption || (cbn [start i]; lia)).
  rewrite after_after, telnet_loop_over
    by (rewrite locals_after_i; cbn [start i]; lia).
  now rewrite locals_after_msg.
Qed.

(** A cycle that reads a username prompt: the username is submitted in it,
    or was before. *)
Lemma telnet_loop_user_now (fuel : nat) (st : locals) (o : string)
      (rest : list read_result) :
  (i st <= max_loops)%Z ->
  Re.search username_pattern o Re.I = true ->
  user_writes (trace (telnet_loop' (S fuel) st (Data o :: rest)))
  = if sent_user st then []
    else [(AtTab, TAB);
          (AtUsername, (username self ++ TELNET_RETURN self)%string)].
Proof.
  intros L U.
  assert (D : user_due' st o = negb (sent_user st))
    by (unfold user_due; now rewrite U).
  destruct (is_prompt' o) eqn:P.
  - rewrite telnet_loop_prompt by assumption. cbn [trace].
    change (EvRead (Data o) :: answer_log' st o)
      with ([EvRead (Data o)] ++ answer_log' st o).
    rewrite user_writes_app, answer_log_user, D.
    now destruct (sent_user st).
  - rewrite telnet_loop_next by assumption. cbn [after trace].
    rewrite user_writes_app, cycle_log_user, answer_log_user, D.
    destruct (telnet_loop_user fuel (advance' st o) rest) as [E|[E _]].
    + rewrite E. now destruct (sent_user st).
    + cbn [advance sent_user] in E. rewrite D in E.
      destruct (sent_user st); discriminate E.
Qed.

End TelnetFacts.

(* ================================================================= *)
(** ** The properties of the specification *)

(** C1. Bounded termination.  Whatever the channel yields, [telnet_login]
    ends, with a result or with an exception, after at most one read for
    each of its [max_loops] cycles and the one read of the last try; and the
    loop of [special_login_handler] ends after at most 13 cycles, each of
    which reads the channel once. *)
Theorem bounded_termination
        (self : connection) (pri alt user pwd : Re.regex) (max_loops : Z)
        (ch : list read_result) :
  ((exists msg, result (telnet_login self pri alt user pwd max_loops ch)
                = Ok msg)
   \/ (exists e, result (telnet_login self pri alt user pwd max_loops ch)
                 = Raise e))
  /\ reads (trace (telnet_login self pri alt user pwd max_loops ch))
     <= Z.to_nat max_loops + 1
  /\ (result (special_login_handler self ch) = Ok tt
      \/ (exists e, result (special_login_handler self ch) = Raise e))
  /\ reads (trace (special_login_handler self ch)) <= 13.
Proof.
  rewrite telnet_login_run. cbn [after result trace].
  destruct (telnet_loop_bound self pri alt user pwd max_loops
              (Z.to_nat max_loops) start ch) as [B T].
  destruct (ssh_loop_bound self 13 0 ch) as [B' T'].
  cbn [start i] in B, T.
  unfold special_login_handler.
  repeat split.
  - destruct (result (telnet_loop self pri alt user pwd max_loops
                        (Z.to_nat max_loops) start ch)) as [m|e|] eqn:E.
    + left. now exists m.
    + right. now exists e.
    + exfalso. apply T; [lia | reflexivity].
  - rewrite reads_app. change (reads [EvSleep 10]) with 0. lia.
  - destruct (result (ssh_loop self 13 0 ch)) as [[]|e|] eqn:E.
    + now left.
    + right. now exists e.
    + exfalso. apply T'; [apply Nat.le_refl | reflexivity].
  - exact B'.
Qed.

(** The failure paths of [telnet_login] that do close the connection.
    (1) When a read reports the end of the stream in a cycle of the loop,
    the login fails there: the connection is closed right after that read,
    nothing more is read, and the exception raised is the authentication
    error.  (2) When the loop is exhausted and the fragment of the last try
    is no prompt, the connection is closed and the same exception is
    raised.  (3) Whenever the authentication error is raised, its message
    is "Login failed: " followed by the host, the close is the last effect
    before the raise, and it is the only close. *)
Theorem failure_atomicity
        (self : connection) (pri alt user pwd : Re.regex) (max_loops : Z) :
  (forall (pre : list string) (rest : list read_result),
      Forall (fun o => is_prompt pri alt o = false) pre ->
      (Z.of_nat (length pre) < max_loops)%Z ->
      result (telnet_login self pri alt user pwd max_loops
                (map Data pre ++ EOF :: rest))
      = Raise (failure self)
      /\ pending (telnet_login self pri alt user pwd max_loops
                    (map Data pre ++ EOF :: rest)) = rest
      /\ reads (trace (telnet_login self pri alt user pwd max_loops
                         (map Data pre ++ EOF :: rest))) = length pre + 1
      /\ exists evs,
          trace (telnet_login self pri alt user pwd max_loops
                   (map Data pre ++ EOF :: rest))
          = evs ++ [EvRead EOF; EvClose]
          /\ closes evs = 0)
  /\ (forall (pre : list string) (o : string) (rest : list read_result),
         Forall (fun o => is_prompt pri alt o = false) pre ->
         length pre = Z.to_nat max_loops ->
         is_prompt pri alt o = false ->
         result (telnet_login self pri alt user pwd max_loops
                   (map Data pre ++ Data o :: rest))
         = Raise (failure self)
         /\ exists evs,
             trace (telnet_login self pri alt user pwd max_loops
                      (map Data pre ++ Data o :: rest))
             = evs ++ [EvRead (Data o); EvClose]
             /\ closes evs = 0)
  /\ (forall (ch : list read_result) (msg : string),
         result (telnet_login self pri alt user pwd max_loops ch)
         = Raise (NetmikoAuthenticationException msg) ->
         msg = ("Login failed: " ++ host self)%string
         /\ contains (host self) msg = true
         /\ exists evs,
             trace (telnet_login self pri alt user pwd max_loops ch)
             = evs ++ [EvClose]
             /\ closes evs = 0).
Proof.
  split; [|split].
  - intros pre rest Hq Hn.
    destruct (telnet_login_reach self pri alt user pwd max_loops
                pre (EOF :: rest) Hq Hn) as (fuel & E & L).
    rewrite E, telnet_loop_eof by assumption.
    cbn [after result pending trace]. repeat split.
    + change (EvSleep 10 :: log_of self user pwd start pre)
        with ([EvSleep 10] ++ log_of self user pwd start pre).
      rewrite !reads_app, log_of_reads. reflexivity.
    + exists (EvSleep 10 :: log_of self user pwd start pre). split.
      * reflexivity.
      * change (EvSleep 10 :: log_of self user pwd start pre)
          with ([EvSleep 10] ++ log_of self user pwd start pre).
        now rewrite closes_app, log_of_closes.
  - intros pre o rest Hq Hn Ho.
    rewrite telnet_login_exhaust, last_try_data, Ho by assumption.
    cbn [after result trace]. split; [reflexivity|].
    exists (EvSleep 10 :: log_of self user pwd start pre
            ++ [EvWrite AtReturn (TELNET_RETURN self); EvSleep 5]). split.
    + cbn [app]. now rewrite <- app_assoc.
    + change (EvSleep 10 :: log_of self user pwd start pre
              ++ [EvWrite AtReturn (TELNET_RETURN self); EvSleep 5])
        with ([EvSleep 10] ++ log_of self user pwd start pre
              ++ [EvWrite AtReturn (TELNET_RETURN self); EvSleep 5]).
      now rewrite !closes_app, log_of_closes.
  - intros ch msg. rewrite telnet_login_run. cbn [after result trace].
    intros E.
    destruct (telnet_loop_close self pri alt user pwd max_loops
                (Z.to_nat max_loops) start ch) as [F _].
    destruct (F msg E) as (M & evs & T & C).
    assert (M' : msg = ("Login failed: " ++ host self)%string)
      by (unfold failure in M; congruence).
    split; [exact M'|]. split.
    + rewrite M'. apply contains_app_r.
    + exists (EvSleep 10 :: evs). rewrite T. split; [reflexivity|].
      exact C.
Qed.

(** C2. Failure atomicity of [telnet_login] does not hold on every failure
    path.  The read of a loop cycle (line 81) is inside the [try], and its
    [EOFError] is answered with a close and the authentication error; the
    read of the last try (line 125) is outside it.  With the default
    patterns and [max_loops = 20], twenty empty fragments and then the end
    of the stream: the login fails with the bare [EOFError], which does not
    name the host, the connection is never closed, and the last effect is
    the failed read. *)
Theorem failure_without_close_at_last_try :
  result (telnet_login_default sw 20 (repeat (Data "") 20 ++ [EOF]))
  = Raise EOFError
  /\ closes (trace (telnet_login_default sw 20
                      (repeat (Data "") 20 ++ [EOF]))) = 0
  /\ reads (trace (telnet_login_default sw 20
                     (repeat (Data "") 20 ++ [EOF]))) = 21
  /\ last (trace (telnet_login_default sw 20
                    (repeat (Data "") 20 ++ [EOF]))) EvClose
     = EvRead EOF
  /\ (forall msg,
         result (telnet_login_default sw 20 (repeat (Data "") 20 ++ [EOF]))
         <> Raise (NetmikoAuthenticationException msg)).
Proof.
  assert (E : result (telnet_login_default sw 20
                        (repeat (Data "") 20 ++ [EOF]))
              = Raise EOFError) by (vm_compute; reflexivity).
  split; [exact E|]. split; [vm_compute; reflexivity|].
  split; [vm_compute; reflexivity|]. split; [vm_compute; reflexivity|].
  intros msg. rewrite E. discriminate.
Qed.

(** C3. Success detection.  In whatever cycle of the loop the fragment read
    matches the primary or the alternate prompt terminator (searched with
    re.M), [telnet_login] returns in that cycle: the result is the
    transcript up to and with that fragment, nothing more is read, and after
    the read the trace holds the answers of lines 86-106 to that fragment
    and nothing else. *)
Theorem success_detection
        (self : connection) (pri alt user pwd : Re.regex) (max_loops : Z)
        (pre : list string) (o : string) (rest : list read_result) :
  Forall (fun f => is_prompt pri alt f = false) pre ->
  (Z.of_nat (length pre) < max_loops)%Z ->
  Re.search pri o Re.M = true \/ Re.search alt o Re.M = true ->
  result (telnet_login self pri alt user pwd max_loops
            (map Data pre ++ Data o :: rest))
  = Ok (cat pre ++ o)%string
  /\ pending (telnet_login self pri alt user pwd max_loops
                (map Data pre ++ Data o :: rest)) = rest
  /\ reads (trace (telnet_login self pri alt user pwd max_loops
                     (map Data pre ++ Data o :: rest))) = length pre + 1
  /\ trace (telnet_login self pri alt user pwd max_loops
              (map Data pre ++ Data o :: rest))
     = EvSleep 10 :: log_of self user pwd start pre
       ++ EvRead (Data o)
       :: trace (answer self user pwd (locals_after user pwd start pre)
                   o rest).
Proof.
  intros Hq Hn Ho.
  assert (P : is_prompt pri alt o = true).
  { unfold is_prompt. destruct Ho as [-> | ->];
      [reflexivity | apply orb_true_r]. }
  destruct (telnet_login_reach self pri alt user pwd max_loops
              pre (Data o :: rest) Hq Hn) as (fuel & E & L).
  rewrite E, telnet_loop_prompt, answer_run by assumption.
  cbn [after result pending trace]. rewrite locals_after_msg.
  repeat split.
  change (EvSleep 10 :: log_of self user pwd start pre)
    with ([EvSleep 10] ++ log_of self user pwd start pre).
  change (EvRead (Data o)
          :: answer_log self user pwd (locals_after user pwd start pre) o)
    with ([EvRead (Data o)]
          ++ answer_log self user pwd (locals_after user pwd start pre) o).
  rewrite !reads_app, log_of_reads, answer_log_reads. reflexivity.
Qed.

(** C4. Idempotent credential submission.  (1) When a fragment read in a
    cycle of the loop matches the username pattern, whatever was read in the
    cycles before it and whatever is read after it, further username prompts
    included, the writes of the username submission in the whole run are
    one tab and then one write of the username with the Telnet line
    terminator.  (2) In every run the username is submitted at most once,
    and (3) the password, with the Telnet line terminator, at most once. *)
Theorem idempotent_credentials
        (self : connection) (pri alt user pwd : Re.regex) (max_loops : Z) :
  (forall (pre : list string) (o : string) (rest : list read_result),
      Forall (fun f => is_prompt pri alt f = false) pre ->
      (Z.of_nat (length pre) < max_loops)%Z ->
      Re.search user o Re.I = true ->
      user_writes (trace (telnet_login self pri alt user pwd max_loops
                            (map Data pre ++ Data o :: rest)))
      = [(AtTab, TAB);
         (AtUsername, (username self ++ TELNET_RETURN self)%string)])
  /\ (forall ch : list read_result,
         user_writes (trace (telnet_login self pri alt user pwd max_loops ch))
         = []
         \/ user_writes
              (trace (telnet_login self pri alt user pwd max_loops ch))
            = [(AtTab, TAB);
               (AtUsername, (username self ++ TELNET_RETURN self)%string)])
  /\ (forall ch : list read_result,
         pass_writes (trace (telnet_login self pri alt user pwd max_loops ch))
         = []
         \/ pass_writes
              (trace (telnet_login self pri alt user pwd max_loops ch))
            = [(AtPassword,
                (password self ++ TELNET_RETURN self)%string)]).
Proof.
  split; [|split].
  - intros pre o rest Hq Hn Hu.
    destruct (telnet_login_reach self pri alt user pwd max_loops
                pre (Data o :: rest) Hq Hn) as (fuel & E & L).
    rewrite E. cbn [after trace].
    change (EvSleep 10 :: log_of self user pwd start pre)
      with ([EvSleep 10] ++ log_of self user pwd start pre).
    rewrite !user_writes_app, telnet_loop_user_now by assumption.
    rewrite log_of_user by reflexivity.
    now destruct (sent_user (locals_after user pwd start pre)).
  - intros ch. rewrite telnet_login_run. cbn [after trace].
    rewrite user_writes_app.
    destruct (telnet_loop_user self pri alt user pwd max_loops
                (Z.to_nat max_loops) start ch) as [E|[_ E]];
      rewrite E; auto.
  - intros ch. rewrite telnet_login_run. cbn [after trace].
    rewrite pass_writes_app.
    destruct (telnet_loop_pass self pri alt user pwd max_loops
                (Z.to_nat max_loops) start ch) as [E|[_ E]];
      rewrite E; auto.
Qed.

(** C10. The channel is kept on success.  When [telnet_login] returns, from
    a cycle of the loop or from the last try, the connection was never
    closed; a close occurs only in a run that raises the authentication
    error. *)
Theorem channel_kept_on_success
        (self : connection) (pri alt user pwd : Re.regex) (max_loops : Z)
        (ch : list read_result) :
  (forall msg,
      result (telnet_login self pri alt user pwd max_loops ch) = Ok msg ->
      closes (trace (telnet_login self pri alt user pwd max_loops ch)) = 0)
  /\ (closes (trace (telnet_login self pri alt user pwd max_loops ch)) <> 0 ->
      result (telnet_login self pri alt user pwd max_loops ch)
      = Raise (failure self)).
Proof.
  rewrite telnet_login_run. cbn [after result trace].
  rewrite closes_app. change (closes [EvSleep 10]) with 0. cbn [Nat.add].
  destruct (telnet_loop_close self pri alt user pwd max_loops
              (Z.to_nat max_loops) start ch) as [F N].
  split.
  - intros msg E. apply N. intros e. rewrite E. discriminate.
  - intros C.
    destruct (result (telnet_loop self pri alt user pwd max_loops
                        (Z.to_nat max_loops) start ch)) as [m|[|e]|] eqn:E;
      try (exfalso; apply C, N; intros e'; discriminate).
    destruct (F e eq_refl) as [M _]. now rewrite M.
Qed.

(** C5. Lenient exhaustion of [special_login_handler].  When no fragment the
    channel yields contains "ssword", the loop runs its 13 cycles, the
    password is never written, and the handler returns without raising. *)
Theorem lenient_exhaustion (self : connection) (frags : list string) :
  Forall (fun o => contains "ssword" o = false) frags ->
  result (special_login_handler self (map Data frags)) = Ok tt
  /\ reads (trace (special_login_handler self (map Data frags))) = 13
  /\ pass_writes (trace (special_login_handler self (map Data frags))) = [].
Proof.
  intros H. unfold special_login_handler.
  apply (ssh_loop_no_password self 13 0%Z frags H). apply Nat.le_refl.
Qed.

(** C6. The scenario of [special_login_handler].  With the fragments
    "Enter Ctrl-Y to begin.", "sername:" and "ssword:" on three polls, the
    writes are Ctrl-Y, the username with the line terminator and the
    password with the line terminator, in this order; the loop is left in
    the third cycle, right after the password is written: nothing is slept,
    read or written after it. *)
Theorem ssh_scenario (self : connection) (rest : list read_result) :
  writes (trace (special_login_handler self
                   (Data "Enter Ctrl-Y to begin." :: Data "sername:"
                    :: Data "ssword:" :: rest)))
  = [(AtCtrlY, CTRL_Y);
     (AtUsername, (username self ++ RETURN self)%string);
     (AtPassword, (password self ++ RETURN self)%string)]
  /\ special_login_handler self
       (Data "Enter Ctrl-Y to begin." :: Data "sername:"
        :: Data "ssword:" :: rest)
     = {| result := Ok tt;
          pending := rest;
          trace :=
            [EvRead (Data "Enter Ctrl-Y to begin.");
             EvWrite AtCtrlY CTRL_Y;
             EvSleep 5;
             EvRead (Data "sername:");
             EvWrite AtUsername (username self ++ RETURN self)%string;
             EvSleep 5;
             EvRead (Data "ssword:");
             EvWrite AtPassword (password self ++ RETURN self)%string] |}.
Proof. split; reflexivity. Qed.


(** C7, as amended.  A fragment that contains "Use arrow keys to highlight
    option" is answered in its cycle with "c" and a newline; this is the
    first write after the read unless the fragment contains "Ctrl-Y" too, in
    which case the answer to Ctrl-Y is written first and "c" with a newline
    right after it. *)
Theorem menu_bypass
        (self : connection) (pri alt user pwd : Re.regex)
        (st : locals) (o : string) (rest : list read_result) :
  contains "Use arrow keys to highlight option" o = true ->
  exists more,
    writes (trace (telnet_cycle self pri alt user pwd st (Data o :: rest)))
    = (if contains "Ctrl-Y" o then [(AtCtrlY, (chr 25 ++ LF)%string)]
       else [])
      ++ (AtMenu, ("c" ++ LF)%string) :: more.
Proof.
  intros H. rewrite telnet_cycle_data. cbn [trace].
  unfold answer_log. rewrite H.
  exists (writes
            ((if user_due user st o
              then [EvWrite AtTab TAB; EvSleep 1;
                    EvWrite AtUsername
                      (username self ++ TELNET_RETURN self)%string;
                    EvSleep 10]
              else [])
             ++ (if pass_due pwd st o
                 then [EvWrite AtPassword
                         (password self ++ TELNET_RETURN self)%string;
                       EvSleep 5]
                 else [])
             ++ (if is_prompt pri alt o then [] else [EvSleep 5]))).
  cbn [writes]. rewrite <- !app_assoc.
  destruct (contains "Ctrl-Y" o); cbn [app writes]; reflexivity.
Qed.

(** C7, as stated, fails: the fragment below contains the menu marker, and
    the first write after it is read is the answer to Ctrl-Y, not "c" with
    the line terminator. *)
Lemma menu_bypass_counterexample :
  contains "Use arrow keys to highlight option"
           "Ctrl-Y Use arrow keys to highlight option" = true
  /\ hd_error
       (map snd
          (writes
             (trace
                (telnet_cycle sw default_pri_prompt_terminator
                   default_alt_prompt_terminator default_username_pattern
                   default_pwd_pattern start
                   [Data "Ctrl-Y Use arrow keys to highlight option"]))))
     <> Some ("c" ++ LF)%string
  /\ hd_error
       (map snd
          (writes
             (trace
                (telnet_cycle sw default_pri_prompt_terminator
                   default_alt_prompt_terminator default_username_pattern
                   default_pwd_pattern start
                   [Data "Ctrl-Y Use arrow keys to highlight option"]))))
     <> Some ("c" ++ TELNET_RETURN sw)%string.
Proof.
  split; [reflexivity|]. split; vm_compute; intros H; discriminate H.
Qed.

(** C8. The last try.  When as many fragments as the loop has cycles are
    read and none is a prompt, [telnet_login] writes a bare Telnet line
    terminator, sleeps, reads once more, and returns the transcript with
    that last fragment appended if it is a prompt (and fails if it is not);
    there is no further read.  With the default patterns, [max_loops] empty
    fragments and then "switch>" give the transcript made of the empty
    fragments and "switch>". *)
Theorem post_loop_fallback (self : connection) (max_loops : Z) :
  (forall (pri alt user pwd : Re.regex)
          (pre : list string) (o : string) (rest : list read_result),
      Forall (fun f => is_prompt pri alt f = false) pre ->
      length pre = Z.to_nat max_loops ->
      telnet_login self pri alt user pwd max_loops
        (map Data pre ++ Data o :: rest)
      = {| result := if is_prompt pri alt o then Ok (cat pre ++ o)%string
                     else Raise (failure self);
           pending := rest;
           trace := (EvSleep 10 :: log_of self user pwd start pre)
                    ++ [EvWrite AtReturn (TELNET_RETURN self); EvSleep 5;
                        EvRead (Data o)]
                    ++ (if is_prompt pri alt o then [] else [EvClose]) |}
      /\ reads (trace (telnet_login self pri alt user pwd max_loops
                         (map Data pre ++ Data o :: rest)))
         = length pre + 1)
  /\ (forall rest : list read_result,
         result (telnet_login_default self max_loops
                   (repeat (Data "") (Z.to_nat max_loops)
                    ++ Data "switch>" :: rest))
         = Ok (cat (repeat "" (Z.to_nat max_loops)) ++ "switch>")%string
         /\ reads (trace (telnet_login_default self max_loops
                            (repeat (Data "") (Z.to_nat max_loops)
                             ++ Data "switch>" :: rest)))
            = Z.to_nat max_loops + 1).
Proof.
  assert (G : forall (pri alt user pwd : Re.regex)
                     (pre : list string) (o : string)
                     (rest : list read_result),
             Forall (fun f => is_prompt pri alt f = false) pre ->
             length pre = Z.to_nat max_loops ->
             telnet_login self pri alt user pwd max_loops
               (map Data pre ++ Data o :: rest)
             = {| result := if is_prompt pri alt o
                            then Ok (cat pre ++ o)%string
                            else Raise (failure self);
                  pending := rest;
                  trace := (EvSleep 10 :: log_of self user pwd start pre)
                           ++ [EvWrite AtReturn (TELNET_RETURN self);
                               EvSleep 5; EvRead (Data o)]
                           ++ (if is_prompt pri alt o then []
                               else [EvClose]) |}
             /\ reads (trace (telnet_login self pri alt user pwd max_loops
                                (map Data pre ++ Data o :: rest)))
                = length pre + 1).
  { intros pri alt user pwd pre o rest Hq Hn.
    rewrite telnet_login_exhaust, last_try_data by assumption.
    split; [reflexivity|]. cbn [after trace].
    change (EvSleep 10 :: log_of self user pwd start pre)
      with ([EvSleep 10] ++ log_of self user pwd start pre).
    rewrite !reads_app, log_of_reads.
    destruct (is_prompt pri alt o); reflexivity. }
  split; [exact G|].
  intros rest. unfold telnet_login_default.
  rewrite <- (@map_repeat _ _ ""%string (Z.to_nat max_loops) Data).
  destruct (G default_pri_prompt_terminator default_alt_prompt_terminator
              default_username_pattern default_pwd_pattern
              (repeat ""%string (Z.to_nat max_loops)) "switch>"%string rest)
    as [E R].
  - apply Forall_forall. intros f F.
    apply repeat_spec in F. subst f. reflexivity.
  - apply repeat_length.
  - rewrite R, E, repeat_length. split; reflexivity.
Qed.

(* ================================================================= *)
(** ** The theorems at concrete runs *)

(** End of stream in the fifth cycle; end of two cycles and a last fragment
    that is no prompt; a run that raises the authentication error. *)
Lemma failure_atomicity_witness :
  (Forall (fun o => is_prompt default_pri_prompt_terminator
                      default_alt_prompt_terminator o = false)
          ["Enter Ctrl-Y to begin."; ""; "Enter Username:"; ""]%string
   /\ (Z.of_nat 4 < 20)%Z
   /\ result (telnet_login_default sw 20
                [Data "Enter Ctrl-Y to begin."; Data ""; Data "Enter Username:";
                 Data ""; EOF; Data "switch#"])
      = Raise (failure sw)
   /\ pending (telnet_login_default sw 20
                 [Data "Enter Ctrl-Y to begin."; Data "";
                  Data "Enter Username:"; Data ""; EOF; Data "switch#"])
      = [Data "switch#"]
   /\ reads (trace (telnet_login_default sw 20
                      [Data "Enter Ctrl-Y to begin."; Data "";
                       Data "Enter Username:"; Data ""; EOF;
                       Data "switch#"])) = 5)
  /\ (Forall (fun o => is_prompt default_pri_prompt_terminator
                         default_alt_prompt_terminator o = false)
             [""; "Enter Password:"]%string
      /\ 2 = Z.to_nat 2
      /\ is_prompt default_pri_prompt_terminator
           default_alt_prompt_terminator "% Bad password" = false
      /\ result (telnet_login_default sw 2
                   [Data ""; Data "Enter Password:"; Data "% Bad password"])
         = Raise (failure sw))
  /\ (result (telnet_login_default sw 1 [EOF])
      = Raise (NetmikoAuthenticationException "Login failed: 10.0.0.1")
      /\ contains (host sw) "Login failed: 10.0.0.1" = true).
Proof.
  assert (H1 : Forall (fun o => is_prompt default_pri_prompt_terminator
                                  default_alt_prompt_terminator o = false)
                      ["Enter Ctrl-Y to begin."; ""; "Enter Username:"; ""]%string)
    by (repeat constructor).
  assert (H2 : Forall (fun o => is_prompt default_pri_prompt_terminator
                                  default_alt_prompt_terminator o = false)
                      [""; "Enter Password:"]%string)
    by (repeat constructor).
  assert (H3 : result (telnet_login_default sw 1 [EOF])
               = Raise (NetmikoAuthenticationException
                          "Login failed: 10.0.0.1"))
    by reflexivity.
  destruct (failure_atomicity sw default_pri_prompt_terminator
              default_alt_prompt_terminator default_username_pattern
              default_pwd_pattern 20) as (A & _ & _).
  destruct (failure_atomicity sw default_pri_prompt_terminator
              default_alt_prompt_terminator default_username_pattern
              default_pwd_pattern 2) as (_ & B & _).
  destruct (failure_atomicity sw default_pri_prompt_terminator
              default_alt_prompt_terminator default_username_pattern
              default_pwd_pattern 1) as (_ & _ & C).
  destruct (A ["Enter Ctrl-Y to begin."; ""; "Enter Username:"; ""]%string
              [Data "switch#"] H1 eq_refl) as (A1 & A2 & A3 & _).
  destruct (B [""; "Enter Password:"]%string "% Bad password"%string []
              H2 eq_refl eq_refl) as (B1 & _).
  destruct (C [EOF] "Login failed: 10.0.0.1"%string H3) as (_ & C2 & _).
  repeat split; assumption || reflexivity.
Defined.

Lemma success_detection_witness :
  Forall (fun f => is_prompt default_pri_prompt_terminator
                     default_alt_prompt_terminator f = false)
         ["Enter Username:"; "Enter Password:"]%string
  /\ (Z.of_nat 2 < 20)%Z
  /\ Re.search default_pri_prompt_terminator "switch#" Re.M = true
  /\ result (telnet_login_default sw 20
               [Data "Enter Username:"; Data "Enter Password:";
                Data "switch#"; Data "show version"])
     = Ok "Enter Username:Enter Password:switch#"%string
  /\ pending (telnet_login_default sw 20
                [Data "Enter Username:"; Data "Enter Password:";
                 Data "switch#"; Data "show version"])
     = [Data "show version"].
Proof.
  assert (H1 : Forall (fun f => is_prompt default_pri_prompt_terminator
                                  default_alt_prompt_terminator f = false)
                      ["Enter Username:"; "Enter Password:"]%string)
    by (repeat constructor).
  destruct (success_detection sw default_pri_prompt_terminator
              default_alt_prompt_terminator default_username_pattern
              default_pwd_pattern 20
              ["Enter Username:"; "Enter Password:"]%string
              "switch#"%string [Data "show version"]
              H1 eq_refl (or_introl eq_refl)) as (R & P & _).
  repeat split; assumption || reflexivity.
Defined.

(** The username prompt in the first cycle and again in the third. *)
Lemma idempotent_credentials_witness :
  Forall (fun f => is_prompt default_pri_prompt_terminator
                     default_alt_prompt_terminator f = false)
         ["Enter Username:"; ""]%string
  /\ (Z.of_nat 2 < 20)%Z
  /\ Re.search default_username_pattern "enter username:" Re.I = true
  /\ user_writes
       (trace (telnet_login_default sw 20
                 [Data "Enter Username:"; Data ""; Data "enter username:";
                  Data "Enter Password:"; Data "switch>"]))
     = [(AtTab, TAB); (AtUsername, ("admin" ++ CR ++ LF)%string)].
Proof.
  assert (H1 : Forall (fun f => is_prompt default_pri_prompt_terminator
                                  default_alt_prompt_terminator f = false)
                      ["Enter Username:"; ""]%string)
    by (repeat constructor).
  destruct (idempotent_credentials sw default_pri_prompt_terminator
              default_alt_prompt_terminator default_username_pattern
              default_pwd_pattern 20) as (A & _ & _).
  pose proof (A ["Enter Username:"; ""]%string "enter username:"%string
                [Data "Enter Password:"; Data "switch>"]
                H1 eq_refl eq_refl) as U.
  repeat split; assumption || reflexivity.
Defined.

Lemma channel_kept_on_success_witness :
  result (telnet_login_default sw 20
            [Data "Enter Password:"; Data "switch>"])
  = Ok "Enter Password:switch>"%string
  /\ closes (trace (telnet_login_default sw 20
                      [Data "Enter Password:"; Data "switch>"])) = 0
  /\ closes (trace (telnet_login_default sw 1 [Data ""; Data ""])) <> 0
  /\ result (telnet_login_default sw 1 [Data ""; Data ""])
     = Raise (failure sw).
Proof.
  assert (H1 : result (telnet_login_default sw 20
                         [Data "Enter Password:"; Data "switch>"])
               = Ok "Enter Password:switch>"%string)
    by reflexivity.
  assert (H2 : closes (trace (telnet_login_default sw 1
                                [Data ""; Data ""])) <> 0)
    by (vm_compute; discriminate).
  destruct (channel_kept_on_success sw default_pri_prompt_terminator
              default_alt_prompt_terminator default_username_pattern
              default_pwd_pattern 20
              [Data "Enter Password:"; Data "switch>"]) as (A & _).
  destruct (channel_kept_on_success sw default_pri_prompt_terminator
              default_alt_prompt_terminator default_username_pattern
              default_pwd_pattern 1 [Data ""; Data ""]) as (_ & B).
  pose proof (A _ H1) as A1. pose proof (B H2) as B1.
  repeat split; assumption.
Defined.

Lemma lenient_exhaustion_witness :
  Forall (fun o => contains "ssword" o = false)
         ["Enter Ctrl-Y to begin."; "sername:"; "% Access denied"]%string
  /\ result (special_login_handler sw
               [Data "Enter Ctrl-Y to begin."; Data "sername:";
                Data "% Access denied"]) = Ok tt
  /\ reads (trace (special_login_handler sw
                     [Data "Enter Ctrl-Y to begin."; Data "sername:";
                      Data "% Access denied"])) = 13.
Proof.
  assert (H1 : Forall (fun o => contains "ssword" o = false)
                      ["Enter Ctrl-Y to begin."; "sername:";
                       "% Access denied"]%string)
    by (repeat constructor).
  destruct (lenient_exhaustion sw _ H1) as (R & N & _).
  repeat split; assumption.
Defined.


Lemma menu_bypass_witness :
  contains "Use arrow keys to highlight option"
           "Use arrow keys to highlight option, Enter to select" = true
  /\ exists more,
      writes (trace (telnet_cycle sw default_pri_prompt_terminator
                       default_alt_prompt_terminator
                       default_username_pattern default_pwd_pattern start
                       [Data "Use arrow keys to highlight option, Enter to select"]))
      = (AtMenu, ("c" ++ LF)%string) :: more.
Proof.
  split; [reflexivity|].
  exact (menu_bypass sw default_pri_prompt_terminator
           default_alt_prompt_terminator default_username_pattern
           default_pwd_pattern start
           "Use arrow keys to highlight option, Enter to select"%string
           [] eq_refl).
Defined.

Lemma post_loop_fallback_witness :
  Forall (fun f => is_prompt default_pri_prompt_terminator
                     default_alt_prompt_terminator f = false)
         [""; ""; ""]%string
  /\ 3 = Z.to_nat 3
  /\ result (telnet_login_default sw 3
               [Data ""; Data ""; Data ""; Data "switch>"])
     = Ok "switch>"%string
  /\ reads (trace (telnet_login_default sw 3
                     [Data ""; Data ""; Data ""; Data "switch>"])) = 4.
Proof.
  assert (H1 : Forall (fun f => is_prompt default_pri_prompt_terminator
                                  default_alt_prompt_terminator f = false)
                      [""; ""; ""]%string)
    by (repeat constructor).
  destruct (post_loop_fallback sw 3) as (A & _).
  destruct (A default_pri_prompt_terminator default_alt_prompt_terminator
              default_username_pattern default_pwd_pattern
              [""; ""; ""]%string "switch>"%string [] H1 eq_refl)
    as (E & N).
  split; [exact H1|]. split; [reflexivity|]. split.
  - unfold telnet_login_default.
    change [Data ""; Data ""; Data ""; Data "switch>"]
      with (map Data [""; ""; ""]%string ++ [Data "switch>"]).
    rewrite E. reflexivity.
  - exact N.
Defined.

(** The scenario of a login over Telnet: the username is sent after the
    first fragment, the password after the second, and the third is the
    prompt. *)
Example telnet_scenario :
  telnet_login_default sw 20
    [Data "Enter Username:"; Data "Enter Password:"; Data "switch#"]
  = {| result := Ok "Enter Username:Enter Password:switch#"%string;
       pending := [];
       trace :=
         [EvSleep 10;
          EvRead (Data "Enter Username:");
          EvWrite AtTab TAB; EvSleep 1;
          EvWrite AtUsername ("admin" ++ CR ++ LF)%string; EvSleep 10;
          EvSleep 5;
          EvRead (Data "Enter Password:");
          EvWrite AtPassword ("secret" ++ CR ++ LF)%string; EvSleep 5;
          EvSleep 5;
          EvRead (Data "switch#")] |}.
Proof. reflexivity. Qed.

(** The read of the last try is outside the [try]: when it reports the end
    of the stream, [EOFError] leaves [telnet_login] as it is and the
    connection is not closed. *)
Example last_try_end_of_stream :
  telnet_login_default sw 1 [Data ""; EOF]
  = {| result := Raise EOFError;
       pending := [];
       trace :=
         [EvSleep 10; EvRead (Data ""); EvSleep 5;
          EvWrite AtReturn (CR ++ LF)%string; EvSleep 5; EvRead EOF] |}.
Proof. reflexivity. Qed.

(* ================================================================= *)
(** ** More on the byte-oriented driver *)

Lemma slept_app (a b : list event) : slept (a ++ b) = slept a + slept b.
Proof.
  induction a as [|e a IH]; simpl; [reflexivity|].
  destruct e; simpl; rewrite IH; lia.
Qed.

Lemma fragments_read_app (a b : list event) :
  fragments_read (a ++ b) = fragments_read a ++ fragments_read b.
Proof.
  induction a as [|e a IH]; simpl; [reflexivity|].
  destruct e as [[o|]| | |]; simpl; now rewrite IH.
Qed.

Section SshMore.

Variable self : connection.

Lemma ssh_cycle_closes (inb : list read_result) :
  closes (trace (ssh_cycle self inb)) = 0.
Proof.
  assert (D : forall o rest,
             closes (trace (ssh_cycle self (Data o :: rest))) = 0).
  { intros o rest. rewrite ssh_cycle_data. cbn [trace].
    destruct (truthy o); [|reflexivity].
    destruct (contains "Ctrl-Y" o), (contains "sername" o),
      (contains "ssword" o); reflexivity. }
  destruct inb as [|[o|] rest];
    [rewrite ssh_cycle_nil; apply D | apply D | reflexivity].
Qed.

Lemma ssh_cycle_slept (inb : list read_result) :
  slept (trace (ssh_cycle self inb)) <= 10.
Proof.
  assert (D : forall o rest,
             slept (trace (ssh_cycle self (Data o :: rest))) <= 10).
  { intros o rest. rewrite ssh_cycle_data. cbn [trace].
    destruct (truthy o); [|cbn; lia].
    destruct (contains "Ctrl-Y" o), (contains "sername" o),
      (contains "ssword" o); cbn; lia. }
  destruct inb as [|[o|] rest];
    [rewrite ssh_cycle_nil; apply D | apply D | cbn; lia].
Qed.

Lemma ssh_cycle_goes_on (o : string) (rest : list read_result) :
  goes_on o ->
  result (ssh_cycle self (Data o :: rest)) = Ok false
  /\ pending (ssh_cycle self (Data o :: rest)) = rest
  /\ trace (ssh_cycle self (Data o :: rest))
     = trace (ssh_cycle self [Data o])
  /\ pass_writes (trace (ssh_cycle self (Data o :: rest))) = [].
Proof.
  intros G. rewrite !ssh_cycle_data. cbn [result pending trace].
  repeat split.
  - destruct G as [-> | ->];
      [now rewrite andb_false_r | now rewrite andb_false_r].
  - destruct (truthy o); [|reflexivity].
    destruct G as [-> | ->];
      destruct (contains "Ctrl-Y" o); try reflexivity;
      destruct (contains "sername" o); reflexivity.
Qed.

(** A fragment with "ssword" and without "sername": the password is written
    and the cycle breaks. *)
Lemma ssh_cycle_breaks (o : string) (rest : list read_result) :
  contains "sername" o = false ->
  contains "ssword" o = true ->
  ssh_cycle self (Data o :: rest)
  = {| result := Ok true; pending := rest;
       trace := EvRead (Data o)
                :: (if contains "Ctrl-Y" o
                    then [EvWrite AtCtrlY CTRL_Y] else [])
                ++ [EvWrite AtPassword
                      (password self ++ RETURN self)%string] |}.
Proof.
  intros U P.
  assert (T : truthy o = true)
    by (apply (contains_truthy "ssword"); [reflexivity | exact P]).
  rewrite ssh_cycle_data, T, U, P. reflexivity.
Qed.

(** Every run of the loop is one of five shapes. *)
Lemma ssh_loop_cases (P : nat -> Z -> outcome unit -> Prop) :
  (forall fuel i inb,
      (12 < i)%Z ->
      P fuel i {| result := Ok tt; pending := inb; trace := [] |}) ->
  (forall i inb,
      (i <= 12)%Z ->
      P 0 i {| result := OutOfFuel; pending := inb; trace := [] |}) ->
  (forall fuel i rest,
      (i <= 12)%Z ->
      P (S fuel) i {| result := Raise EOFError; pending := rest;
                      trace := [EvRead EOF] |}) ->
  (forall fuel i o rest,
      (i <= 12)%Z ->
      contains "sername" o = false -> contains "ssword" o = true ->
      P (S fuel) i
        {| result := Ok tt; pending := rest;
           trace := EvRead (Data o)
                    :: (if contains "Ctrl-Y" o
                        then [EvWrite AtCtrlY CTRL_Y] else [])
                    ++ [EvWrite AtPassword
                          (password self ++ RETURN self)%string] |}) ->
  (forall fuel i o out,
      (i <= 12)%Z -> goes_on o ->
      P fuel (i + 1)%Z out ->
      P (S fuel) i (after (trace (ssh_cycle self [Data o])) out)) ->
  forall fuel i inb, P fuel i (ssh_loop self fuel i inb).
Proof.
  intros Hover Hzero Heof Hbreak Hnext.
  induction fuel as [|fuel IH]; intros i inb;
    destruct (Z.leb_spec i 12) as [L|G];
    try (rewrite ssh_loop_over by assumption; now apply Hover).
  - cbn [ssh_loop]. destruct (Z.leb_spec i 12); [|lia]. now apply Hzero.
  - assert (D : forall o rest,
               P (S fuel) i (ssh_loop self (S fuel) i (Data o :: rest))).
    { intros o rest.
      destruct (contains "sername" o) eqn:U;
        [|destruct (contains "ssword" o) eqn:W].
      - assert (G : goes_on o) by (now left).
        destruct (ssh_cycle_goes_on o rest G) as (R & Pn & T & _).
        rewrite ssh_loop_continue, Pn, T by assumption.
        apply Hnext; auto.
      - rewrite ssh_loop_break
          by (assumption || (rewrite ssh_cycle_breaks by assumption;
                             reflexivity)).
        rewrite ssh_cycle_breaks by assumption. cbn [pending trace].
        now apply Hbreak.
      - assert (G : goes_on o) by (now right).
        destruct (ssh_cycle_goes_on o rest G) as (R & Pn & T & _).
        rewrite ssh_loop_continue, Pn, T by assumption.
        apply Hnext; auto. }
    destruct inb as [|[o|] rest].
    + replace (ssh_loop self (S fuel) i [])
        with (ssh_loop self (S fuel) i [Data ""]); [apply D|].
      cbn [ssh_loop]. destruct (Z.leb_spec i 12); [reflexivity | lia].
    + apply D.
    + rewrite (ssh_loop_raise _ _ _ _ EOFError) by (assumption || reflexivity).
      rewrite ssh_cycle_eof. cbn [pending trace]. now apply Heof.
Qed.

Lemma ssh_log_cons (o : string) (pre : list string) :
  ssh_log self (o :: pre)
  = trace (ssh_cycle self [Data o]) ++ ssh_log self pre.
Proof. reflexivity. Qed.

Lemma ssh_log_reads (pre : list string) :
  reads (ssh_log self pre) = length pre.
Proof.
  induction pre as [|o pre IH]; [reflexivity|].
  now rewrite ssh_log_cons, reads_app, ssh_cycle_reads, IH.
Qed.

Lemma ssh_log_closes (pre : list string) :
  closes (ssh_log self pre) = 0.
Proof.
  induction pre as [|o pre IH]; [reflexivity|].
  now rewrite ssh_log_cons, closes_app, ssh_cycle_closes, IH.
Qed.

Lemma ssh_log_pass (pre : list string) :
  Forall goes_on pre -> pass_writes (ssh_log self pre) = [].
Proof.
  induction 1 as [|o pre G _ IH]; [reflexivity|].
  destruct (ssh_cycle_goes_on o [] G) as (_ & _ & _ & W).
  now rewrite ssh_log_cons, pass_writes_app, W, IH.
Qed.

Lemma ssh_loop_skip (pre : list string) :
  forall (fuel : nat) (i : Z) (rest : list read_result),
    Forall goes_on pre ->
    (i + Z.of_nat (length pre) <= 13)%Z ->
    ssh_loop self (length pre + fuel) i (map Data pre ++ rest)
    = after (ssh_log self pre)
            (ssh_loop self fuel (i + Z.of_nat (length pre)) rest).
Proof.
  induction pre as [|o pre IH]; intros fuel i rest Hq Hi.
  - cbn [length map app Nat.add]. change (ssh_log self []) with (@nil event).
    rewrite after_nil. f_equal. cbn. lia.
  - inversion Hq as [|? ? Ho Hpre]; subst.
    cbn [length] in Hi.
    change (length (o :: pre) + fuel) with (S (length pre + fuel)).
    change (map Data (o :: pre) ++ rest)
      with (Data o :: (map Data pre ++ rest)).
    destruct (ssh_cycle_goes_on o (map Data pre ++ rest) Ho)
      as (R & Pn & T & _).
    rewrite ssh_loop_continue, Pn, T by (assumption || lia).
    rewrite IH by (assumption || lia).
    rewrite after_after, ssh_log_cons. do 2 f_equal. cbn [length]. lia.
Qed.

(** Fragments on which the loop goes on, at most 12: the handler is then in
    a further cycle. *)
Lemma ssh_handler_reach (pre : list string) (rest : list read_result) :
  Forall goes_on pre ->
  length pre <= 12 ->
  exists (fuel : nat) (i : Z),
    special_login_handler self (map Data pre ++ rest)
    = after (ssh_log self pre) (ssh_loop self (S fuel) i rest)
    /\ (i <= 12)%Z.
Proof.
  intros Hq Hn. exists (12 - length pre), (0 + Z.of_nat (length pre))%Z.
  unfold special_login_handler.
  replace 13 with (length pre + S (12 - length pre)) at 1 by lia.
  rewrite ssh_loop_skip by (assumption || lia).
  split; [reflexivity | lia].
Qed.

End SshMore.

(** X1. [special_login_handler] never closes the connection and never
    raises the authentication error: whatever the channel yields, it
    returns, or the [EOFError] of a read leaves it. *)
Theorem ssh_no_close_no_failure
        (self : connection) (ch : list read_result) :
  closes (trace (special_login_handler self ch)) = 0
  /\ (result (special_login_handler self ch) = Ok tt
      \/ result (special_login_handler self ch) = Raise EOFError).
Proof.
  unfold special_login_handler.
  assert (H : closes (trace (ssh_loop self 13 0 ch)) = 0
              /\ (result (ssh_loop self 13 0 ch) = Ok tt
                  \/ result (ssh_loop self 13 0 ch) = Raise EOFError
                  \/ result (ssh_loop self 13 0 ch) = OutOfFuel)).
  { apply (ssh_loop_cases self
             (fun _ _ out =>
                closes (trace out) = 0
                /\ (result out = Ok tt \/ result out = Raise EOFError
                    \/ result out = OutOfFuel))).
    - intros; cbn; auto.
    - intros; cbn; auto.
    - intros; cbn; auto.
    - intros f i o rest _ _ _. cbn [trace result]. split; [|auto].
      now destruct (contains "Ctrl-Y" o).
    - intros f i o out _ _ [C R]. cbn [after trace result].
      now rewrite closes_app, ssh_cycle_closes, C. }
  destruct H as [C [R|[R|R]]]; auto.
  exfalso. destruct (ssh_loop_bound self 13 0 ch) as [_ T].
  apply T; [apply Nat.le_refl | exact R].
Qed.

(** X2. End of the stream in a cycle of [special_login_handler]: the
    [EOFError] of the read is not caught.  The handler ends there with that
    exception, nothing is written or read after it, and the connection is
    left open. *)
Theorem ssh_end_of_stream
        (self : connection) (pre : list string) (rest : list read_result) :
  Forall goes_on pre ->
  length pre <= 12 ->
  special_login_handler self (map Data pre ++ EOF :: rest)
  = {| result := Raise EOFError; pending := rest;
       trace := ssh_log self pre ++ [EvRead EOF] |}
  /\ reads (ssh_log self pre ++ [EvRead EOF]) = length pre + 1
  /\ closes (ssh_log self pre ++ [EvRead EOF]) = 0.
Proof.
  intros Hq Hn.
  destruct (ssh_handler_reach self pre (EOF :: rest) Hq Hn)
    as (fuel & i & E & L).
  rewrite E, (ssh_loop_raise _ _ _ _ EOFError) by (assumption || reflexivity).
  rewrite ssh_cycle_eof. cbn [after result pending trace].
  rewrite reads_app, closes_app, ssh_log_reads, ssh_log_closes.
  repeat split.
Qed.

(** X3. The password prompt in [special_login_handler]: the first fragment
    that contains "ssword" and not "sername", read in one of the 13 cycles,
    is answered with the password and the line terminator (after Ctrl-Y if
    it contains "Ctrl-Y"), and the handler returns at once: the password
    write is the last effect, the only write of the password, and what is
    pending on the channel is left unread. *)
Theorem ssh_password_ends_login
        (self : connection) (pre : list string) (o : string)
        (rest : list read_result) :
  Forall goes_on pre ->
  length pre <= 12 ->
  contains "sername" o = false ->
  contains "ssword" o = true ->
  special_login_handler self (map Data pre ++ Data o :: rest)
  = {| result := Ok tt; pending := rest;
       trace := ssh_log self pre
                ++ EvRead (Data o)
                :: (if contains "Ctrl-Y" o
                    then [EvWrite AtCtrlY CTRL_Y] else [])
                ++ [EvWrite AtPassword
                      (password self ++ RETURN self)%string] |}
  /\ pass_writes (trace (special_login_handler self
                           (map Data pre ++ Data o :: rest)))
     = [(AtPassword, (password self ++ RETURN self)%string)].
Proof.
  intros Hq Hn U W.
  destruct (ssh_handler_reach self pre (Data o :: rest) Hq Hn)
    as (fuel & i & E & L).
  rewrite E.
  rewrite ssh_loop_break
    by (assumption || (rewrite ssh_cycle_breaks by assumption;
                       reflexivity)).
  rewrite ssh_cycle_breaks by assumption.
  cbn [after result pending trace]. split; [reflexivity|].
  rewrite pass_writes_app, ssh_log_pass by assumption.
  now destruct (contains "Ctrl-Y" o).
Qed.

(** X4. In every run of [special_login_handler] the password is written at
    most once, and when it is written the handler returns right after it. *)
Theorem ssh_password_once_and_last
        (self : connection) (ch : list read_result) :
  pass_writes (trace (special_login_handler self ch)) = []
  \/ (result (special_login_handler self ch) = Ok tt
      /\ exists evs,
          trace (special_login_handler self ch)
          = evs ++ [EvWrite AtPassword
                      (password self ++ RETURN self)%string]
          /\ pass_writes evs = []).
Proof.
  unfold special_login_handler.
  apply (ssh_loop_cases self
           (fun _ _ out =>
              pass_writes (trace out) = []
              \/ (result out = Ok tt
                  /\ exists evs,
                      trace out
                      = evs ++ [EvWrite AtPassword
                                  (password self ++ RETURN self)%string]
                      /\ pass_writes evs = []))).
  - intros; now left.
  - intros; now left.
  - intros; now left.
  - intros f i o rest _ _ _. right. cbn [result trace].
    split; [reflexivity|].
    exists (EvRead (Data o)
            :: (if contains "Ctrl-Y" o then [EvWrite AtCtrlY CTRL_Y]
                else [])).
    split; [reflexivity | now destruct (contains "Ctrl-Y" o)].
  - intros f i o out _ G [E|(R & evs & T & E)]; cbn [after result trace];
      destruct (ssh_cycle_goes_on self o [] G) as (_ & _ & _ & W).
    + left. now rewrite pass_writes_app, W, E.
    + right. split; [exact R|].
      exists (trace (ssh_cycle self [Data o]) ++ evs).
      rewrite T, app_assoc, pass_writes_app, W, E. auto.
Qed.

(** On a channel with nothing to read, and on fragments that all contain
    "sername". *)
Lemma ssh_loop_uniform (self : connection) (fuel : nat) :
  forall (i : Z) (frags : list string),
    Z.to_nat (13 - i) <= fuel ->
    (Forall (fun o => o = ""%string) frags ->
     writes (trace (ssh_loop self fuel i (map Data frags)))
     = repeat (AtReturn, RETURN self) (Z.to_nat (13 - i))
     /\ slept (trace (ssh_loop self fuel i (map Data frags)))
        = 10 * Z.to_nat (13 - i))
    /\ (Forall (fun o => contains "sername" o = true) frags ->
        user_writes (trace (ssh_loop self fuel i (map Data frags)))
        = repeat (AtUsername, (username self ++ RETURN self)%string)
                 (Nat.min (Z.to_nat (13 - i)) (length frags))).
Proof.
  induction fuel as [|fuel IH]; intros i frags Hf.
  - rewrite ssh_loop_over by lia. cbn [trace].
    replace (Z.to_nat (13 - i)) with 0 by lia. split; intros _; auto.
  - destruct (Z.leb_spec i 12) as [L|G].
    2:{ rewrite ssh_loop_over by lia. cbn [trace].
        replace (Z.to_nat (13 - i)) with 0 by lia. split; intros _; auto. }
    replace (Z.to_nat (13 - i)) with (S (Z.to_nat (13 - (i + 1)))) by lia.
    destruct (IH (i + 1)%Z (tl frags)) as [IHs IHu]; [lia|].
    assert (E0 : ssh_cycle self [Data ""]
                 = {| result := Ok false; pending := [];
                      trace := [EvRead (Data ""); EvWrite AtReturn (RETURN self);
                                EvSleep 10] |}) by reflexivity.
    split; intros Hq.
    + assert (C : ssh_loop self (S fuel) i (map Data frags)
                  = after [EvRead (Data ""); EvWrite AtReturn (RETURN self);
                           EvSleep 10]
                          (ssh_loop self fuel (i + 1) (map Data (tl frags)))).
      { destruct frags as [|o rest].
        - change (map Data []) with (@nil read_result).
          rewrite ssh_loop_continue
            by (assumption || (rewrite ssh_cycle_nil, E0; reflexivity)).
          now rewrite ssh_cycle_nil, E0.
        - inversion Hq; subst. cbn [map tl].
          destruct (ssh_cycle_goes_on self ""%string (map Data rest))
            as (R & Pn & T & _); [now right|].
          rewrite ssh_loop_continue, Pn, T, E0 by assumption.
          reflexivity. }
      rewrite C. cbn [after trace]. rewrite writes_app, slept_app.
      destruct IHs as [W S].
      { destruct frags; [constructor | now inversion Hq]. }
      rewrite W, S. cbn [writes slept app repeat]. split; [reflexivity|lia].
    + destruct frags as [|o rest].
      * change (map Data []) with (@nil read_result).
        rewrite ssh_loop_continue
          by (assumption || (rewrite ssh_cycle_nil, E0; reflexivity)).
        rewrite ssh_cycle_nil, E0. cbn [after trace pending].
        rewrite user_writes_app. cbn [tl map] in IHu.
        rewrite IHu by constructor. cbn [length].
        rewrite !Nat.min_0_r. reflexivity.
      * inversion Hq as [|? ? Ho Hrest]; subst. cbn [map tl length] in *.
        destruct (ssh_cycle_goes_on self o (map Data rest))
          as (R & Pn & T & _); [now left|].
        rewrite ssh_loop_continue, Pn by assumption.
        cbn [after trace]. rewrite user_writes_app, IHu by assumption.
        rewrite ssh_cycle_data. cbn [trace].
        assert (Tr : truthy o = true)
          by (apply (contains_truthy "sername"); [reflexivity | exact Ho]).
        rewrite Tr, Ho.
        rewrite <- Nat.succ_min_distr. cbn [repeat].
        now destruct (contains "Ctrl-Y" o).
Qed.

(** X5. A silent channel: when every read of [special_login_handler] gives
    the empty string, each of the 13 cycles writes the bare line terminator
    and sleeps [1 * delay_factor]; these 13 nudges are all that is written,
    and the handler returns. *)
Theorem ssh_silent_channel (self : connection) (frags : list string) :
  Forall (fun o => o = ""%string) frags ->
  writes (trace (special_login_handler self (map Data frags)))
  = repeat (AtReturn, RETURN self) 13
  /\ slept (trace (special_login_handler self (map Data frags))) = 130
  /\ result (special_login_handler self (map Data frags)) = Ok tt.
Proof.
  intros H. unfold special_login_handler.
  destruct (ssh_loop_uniform self 13 0%Z frags (Nat.le_refl _)) as [S _].
  destruct (S H) as [W T]. split; [exact W|]. split; [exact T|].
  apply (ssh_loop_no_password self 13 0%Z frags); [|apply Nat.le_refl].
  eapply Forall_impl; [|exact H]. intros o ->. reflexivity.
Qed.

(** X6. [special_login_handler] keeps no record of what it sent: the
    username is written again for every fragment that contains "sername".
    When all the fragments do, it is written once per fragment, up to the
    13 cycles of the loop. *)
Theorem ssh_username_repeated (self : connection) (frags : list string) :
  Forall (fun o => contains "sername" o = true) frags ->
  user_writes (trace (special_login_handler self (map Data frags)))
  = repeat (AtUsername, (username self ++ RETURN self)%string)
           (Nat.min 13 (length frags)).
Proof.
  intros H. unfold special_login_handler.
  destruct (ssh_loop_uniform self 13 0%Z frags (Nat.le_refl _)) as [_ U].
  exact (U H).
Qed.

(** X7. The time [special_login_handler] sleeps: at most
    [13 * delay_factor] seconds in all, whatever the channel yields. *)
Theorem ssh_sleep_budget (self : connection) (ch : list read_result) :
  slept (trace (special_login_handler self ch)) <= 130.
Proof.
  unfold special_login_handler.
  assert (H : slept (trace (ssh_loop self 13 0 ch))
              <= 10 * Z.to_nat (13 - 0)).
  { apply (ssh_loop_cases self
             (fun _ i out => slept (trace out) <= 10 * Z.to_nat (13 - i))).
    - intros; cbn [trace slept]; lia.
    - intros; cbn [trace slept]; lia.
    - intros; cbn [trace slept]; lia.
    - intros f i o rest L _ _. cbn [trace].
      destruct (contains "Ctrl-Y" o); cbn [app slept]; lia.
    - intros f i o out L _ B. cbn [after trace].
      rewrite slept_app.
      pose proof (ssh_cycle_slept self [Data o]). lia. }
  exact H.
Qed.

(* ================================================================= *)
(** ** More on the line-oriented driver *)

Lemma string_app_nil_r (s : string) : (s ++ "")%string = s.
Proof. induction s as [|c s IH]; simpl; congruence. Qed.

Section TelnetMore.

Variable self : connection.
Variables pri_prompt_terminator alt_prompt_terminator : Re.regex.
Variables username_pattern pwd_pattern : Re.regex.
Variable max_loops : Z.

Local Abbreviation is_prompt' :=
  (is_prompt pri_prompt_terminator alt_prompt_terminator).
Local Abbreviation telnet_cycle' :=
  (telnet_cycle self pri_prompt_terminator alt_prompt_terminator
     username_pattern pwd_pattern).
Local Abbreviation last_try' :=
  (last_try self pri_prompt_terminator alt_prompt_terminator).
Local Abbreviation telnet_loop' :=
  (telnet_loop self pri_prompt_terminator alt_prompt_terminator
     username_pattern pwd_pattern max_loops).
Local Abbreviation telnet_login' :=
  (telnet_login self pri_prompt_terminator alt_prompt_terminator
     username_pattern pwd_pattern max_loops).
Local Abbreviation answer_log' :=
  (answer_log self username_pattern pwd_pattern).
Local Abbreviation advance' := (advance username_pattern pwd_pattern).
Local Abbreviation cycle_log' :=
  (cycle_log self username_pattern pwd_pattern).
Local Abbreviation log_of' := (log_of self username_pattern pwd_pattern).
Local Abbreviation user_due' := (user_due username_pattern).
Local Abbreviation pass_due' := (pass_due pwd_pattern).
Local Abbreviation loop_cases :=
  (telnet_loop_cases self pri_prompt_terminator alt_prompt_terminator
     username_pattern pwd_pattern max_loops).
Local Abbreviation shape :=
  (last_try_shape self pri_prompt_terminator alt_prompt_terminator).

Lemma answer_log_fragments (st : locals) (o : string) :
  fragments_read (answer_log' st o) = [].
Proof.
  unfold answer_log.
  destruct (contains "Ctrl-Y" o),
    (contains "Use arrow keys to highlight option" o),
    (user_due' st o), (pass_due' st o); reflexivity.
Qed.

Lemma answer_log_slept (st : locals) (o : string) :
  slept (answer_log' st o)
  = (if user_due' st o then 11 else 0) + (if pass_due' st o then 5 else 0).
Proof.
  unfold answer_log.
  destruct (contains "Ctrl-Y" o),
    (contains "Use arrow keys to highlight option" o),
    (user_due' st o), (pass_due' st o); reflexivity.
Qed.

Lemma cycle_log_fragments (st : locals) (o : string) :
  fragments_read (cycle_log' st o) = [o].
Proof.
  unfold cycle_log. cbn [fragments_read].
  now rewrite fragments_read_app, answer_log_fragments.
Qed.

Lemma cycle_log_slept (st : locals) (o : string) :
  slept (cycle_log' st o)
  = (if user_due' st o then 11 else 0) + (if pass_due' st o then 5 else 0)
    + 5.
Proof.
  unfold cycle_log. cbn [slept].
  now rewrite slept_app, answer_log_slept.
Qed.

(** What [telnet_login] returns is what it read. *)
Lemma telnet_loop_transcript (fuel : nat) (st : locals)
      (inb : list read_result) :
  forall msg,
    result (telnet_loop' fuel st inb) = Ok msg ->
    msg = (return_msg st
           ++ cat (fragments_read (trace (telnet_loop' fuel st inb))))%string.
Proof.
  apply (loop_cases
           (fun _ st out =>
              forall msg,
                result out = Ok msg ->
                msg = (return_msg st
                       ++ cat (fragments_read (trace out)))%string)).
  - intros f s b _ msg.
    destruct (shape (return_msg s) b) as (r & rest & _ & _ & T & R).
    rewrite T, R.
    destruct r as [o|]; [destruct (is_prompt' o)|];
      intros E; try discriminate E.
    injection E as <-. cbn. now rewrite string_app_nil_r.
  - intros s b _ msg E. discriminate E.
  - intros f s rest _ msg E. discriminate E.
  - intros f s o rest _ _ msg E. cbn [result trace] in *.
    injection E as <-. cbn [fragments_read].
    rewrite answer_log_fragments. cbn. now rewrite string_app_nil_r.
  - intros f s o out _ _ IH msg E. cbn [after result trace] in *.
    rewrite (IH msg E), fragments_read_app, cycle_log_fragments.
    cbn [advance return_msg app cat fold_right].
    apply string_app_assoc.
Qed.

(** The sleeps of the loop and of the last try. *)
Lemma telnet_loop_slept (fuel : nat) (st : locals) (inb : list read_result) :
  slept (trace (telnet_loop' fuel st inb))
  <= 5 * Z.to_nat (max_loops - i st + 1) + 5
     + (if sent_user st then 0 else 11) + (if sent_pass st then 0 else 5).
Proof.
  apply (loop_cases
           (fun _ st out =>
              slept (trace out)
              <= 5 * Z.to_nat (max_loops - i st + 1) + 5
                 + (if sent_user st then 0 else 11)
                 + (if sent_pass st then 0 else 5))).
  - intros f s b _.
    destruct (shape (return_msg s) b) as (r & rest & _ & _ & T & _).
    rewrite T.
    destruct r as [o|]; [destruct (is_prompt' o)|]; cbn [app slept]; lia.
  - intros s b _. cbn [trace slept]. lia.
  - intros f s rest _. cbn [trace slept]. lia.
  - intros f s o rest L _. cbn [trace slept].
    rewrite answer_log_slept. unfold user_due, pass_due.
    destruct (Re.search username_pattern o Re.I),
      (Re.search pwd_pattern o Re.I), (sent_user s), (sent_pass s);
      cbn [andb negb]; lia.
  - intros f s o out L _ B. cbn [after trace].
    rewrite slept_app, cycle_log_slept.
    cbn [advance i sent_user sent_pass] in B. revert B.
    unfold user_due, pass_due.
    destruct (Re.search username_pattern o Re.I),
      (Re.search pwd_pattern o Re.I), (sent_user s), (sent_pass s);
      cbn [andb negb]; lia.
Qed.

(** A credential is written only in a run that read a fragment matching its
    pattern. *)
Lemma telnet_loop_prompted (fuel : nat) (st : locals)
      (inb : list read_result) :
  (user_writes (trace (telnet_loop' fuel st inb)) <> [] ->
   exists o, In (EvRead (Data o)) (trace (telnet_loop' fuel st inb))
             /\ Re.search username_pattern o Re.I = true)
  /\ (pass_writes (trace (telnet_loop' fuel st inb)) <> [] ->
      exists o, In (EvRead (Data o)) (trace (telnet_loop' fuel st inb))
                /\ Re.search pwd_pattern o Re.I = true).
Proof.
  apply (loop_cases
           (fun _ _ out =>
              (user_writes (trace out) <> [] ->
               exists o, In (EvRead (Data o)) (trace out)
                         /\ Re.search username_pattern o Re.I = true)
              /\ (pass_writes (trace out) <> [] ->
                  exists o, In (EvRead (Data o)) (trace out)
                            /\ Re.search pwd_pattern o Re.I = true))).
  - intros f s b _.
    rewrite (last_try_user self pri_prompt_terminator alt_prompt_terminator),
      (last_try_pass self pri_prompt_terminator alt_prompt_terminator).
    split; intros N; now elim N.
  - intros s b _. split; intros N; now elim N.
  - intros f s rest _. split; intros N; now elim N.
  - intros f s o rest _ _. cbn [trace].
    change (EvRead (Data o) :: answer_log' s o)
      with ([EvRead (Data o)] ++ answer_log' s o).
    rewrite user_writes_app, pass_writes_app,
      answer_log_user, answer_log_pass.
    unfold user_due, pass_due. split; intros N; exists o;
      (split; [now left|]).
    + destruct (Re.search username_pattern o Re.I);
        [reflexivity | now elim N].
    + destruct (Re.search pwd_pattern o Re.I);
        [reflexivity | now elim N].
  - intros f s o out _ _ [IHu IHp]. cbn [after trace].
    rewrite user_writes_app, pass_writes_app, cycle_log_user, cycle_log_pass,
      answer_log_user, answer_log_pass.
    unfold user_due, pass_due. split; intros N.
    + destruct (Re.search username_pattern o Re.I) eqn:E.
      * exists o. split; [|exact E]. apply in_or_app. left. now left.
      * destruct IHu as (o' & I' & S'); [exact N|].
        exists o'. split; [|exact S']. apply in_or_app. now right.
    + destruct (Re.search pwd_pattern o Re.I) eqn:E.
      * exists o. split; [|exact E]. apply in_or_app. left. now left.
      * destruct IHp as (o' & I' & S'); [exact N|].
        exists o'. split; [|exact S']. apply in_or_app. now right.
Qed.

End TelnetMore.

(** X8. The transcript: whenever [telnet_login] returns, what it returns is
    the concatenation, in order, of all the fragments it read, the one of
    the last try included. *)
Theorem telnet_transcript_is_what_was_read
        (self : connection) (pri alt user pwd : Re.regex) (max_loops : Z)
        (ch : list read_result) (msg : string) :
  result (telnet_login self pri alt user pwd max_loops ch) = Ok msg ->
  msg = cat (fragments_read
               (trace (telnet_login self pri alt user pwd max_loops ch))).
Proof.
  rewrite telnet_login_run. cbn [after result trace]. intros E.
  apply (telnet_loop_transcript self pri alt user pwd max_loops) in E.
  exact E.
Qed.

(** X9. The time [telnet_login] sleeps: at most
    [(3.1 + 0.5 * max_loops) * delay_factor] seconds in all, that is 31
    tenths and 5 more for each cycle of the loop, whatever the channel
    yields. *)
Theorem telnet_sleep_budget
        (self : connection) (pri alt user pwd : Re.regex) (max_loops : Z)
        (ch : list read_result) :
  slept (trace (telnet_login self pri alt user pwd max_loops ch))
  <= 31 + 5 * Z.to_nat max_loops.
Proof.
  rewrite telnet_login_run. cbn [after trace app slept].
  pose proof (telnet_loop_slept self pri alt user pwd max_loops
                (Z.to_nat max_loops) start ch) as B.
  cbn [start i sent_user sent_pass] in B. lia.
Qed.

(** X10. No credential without a prompt: [telnet_login] writes the username
    only in a run in which it read a fragment matching the username pattern,
    and the password only in a run in which it read a fragment matching the
    password pattern. *)
Theorem telnet_credentials_only_when_prompted
        (self : connection) (pri alt user pwd : Re.regex) (max_loops : Z)
        (ch : list read_result) :
  (user_writes (trace (telnet_login self pri alt user pwd max_loops ch))
   <> [] ->
   exists o,
     In (EvRead (Data o))
        (trace (telnet_login self pri alt user pwd max_loops ch))
     /\ Re.search user o Re.I = true)
  /\ (pass_writes (trace (telnet_login self pri alt user pwd max_loops ch))
      <> [] ->
      exists o,
        In (EvRead (Data o))
           (trace (telnet_login self pri alt user pwd max_loops ch))
        /\ Re.search pwd o Re.I = true).
Proof.
  rewrite telnet_login_run. cbn [after trace].
  destruct (telnet_loop_prompted self pri alt user pwd max_loops
              (Z.to_nat max_loops) start ch) as [U P].
  split; intros N.
  - destruct (U N) as (o & I & S). exists o. split; [now right | exact S].
  - destruct (P N) as (o & I & S). exists o. split; [now right | exact S].
Qed.

(** X11. End of the stream at the last try: the read after the loop is
    outside the [try], so its [EOFError] is not turned into the
    authentication error: it leaves [telnet_login] as it is, and the
    connection is not closed. *)
Theorem telnet_last_try_end_of_stream
        (self : connection) (pri alt user pwd : Re.regex) (max_loops : Z)
        (pre : list string) (rest : list read_result) :
  Forall (fun f => is_prompt pri alt f = false) pre ->
  length pre = Z.to_nat max_loops ->
  telnet_login self pri alt user pwd max_loops
    (map Data pre ++ EOF :: rest)
  = {| result := Raise EOFError;
       pending := rest;
       trace := (EvSleep 10 :: log_of self user pwd start pre)
                ++ [EvWrite AtReturn (TELNET_RETURN self); EvSleep 5;
                    EvRead EOF] |}
  /\ closes (trace (telnet_login self pri alt user pwd max_loops
                      (map Data pre ++ EOF :: rest))) = 0.
Proof.
  intros Hq Hn. rewrite telnet_login_exhaust, last_try_eof by assumption.
  split; [reflexivity|]. cbn [after trace].
  change (EvSleep 10 :: log_of self user pwd start pre)
    with ([EvSleep 10] ++ log_of self user pwd start pre).
  now rewrite !closes_app, log_of_closes.
Qed.

(** X12. No cycle to run: with [max_loops] zero or negative the loop body is
    never entered; [telnet_login] goes to the last try at once, reads the
    channel once, and writes the bare line terminator and nothing else, so
    no credential is sent even to a device that asks for one. *)
Theorem telnet_no_cycles
        (self : connection) (pri alt user pwd : Re.regex) (max_loops : Z)
        (ch : list read_result) :
  (max_loops <= 0)%Z ->
  reads (trace (telnet_login self pri alt user pwd max_loops ch)) = 1
  /\ writes (trace (telnet_login self pri alt user pwd max_loops ch))
     = [(AtReturn, TELNET_RETURN self)].
Proof.
  intros H. rewrite telnet_login_run.
  rewrite telnet_loop_over by (cbn [start i]; lia).
  cbn [after trace].
  destruct (last_try_shape self pri alt (return_msg start) ch)
    as (r & rest & _ & _ & T & _).
  rewrite T.
  destruct r as [o|]; [destruct (is_prompt pri alt o)|];
    split; reflexivity.
Qed.

(** X13. A fragment that contains "Ctrl-Y" is answered first of all with
    Ctrl-Y and a newline, in every cycle in which one is read: there is no
    record of having answered before. *)
Theorem telnet_ctrl_y_first
        (self : connection) (pri alt user pwd : Re.regex)
        (st : locals) (o : string) (rest : list read_result) :
  contains "Ctrl-Y" o = true ->
  exists more,
    writes (trace (telnet_cycle self pri alt user pwd st (Data o :: rest)))
    = (AtCtrlY, (chr 25 ++ LF)%string) :: more.
Proof.
  intros H. rewrite telnet_cycle_data. cbn [trace writes].
  unfold answer_log. rewrite H. cbn [app writes]. eexists. reflexivity.
Qed.

(** X14. The tests of one cycle are independent: a fragment that contains
    "Ctrl-Y" and the menu marker and matches the username and the password
    patterns, read while neither credential has been sent, gets all the
    answers in that one cycle, in the order Ctrl-Y, "c", tab, username,
    password. *)
Theorem telnet_all_answers_in_one_cycle
        (self : connection) (pri alt user pwd : Re.regex)
        (st : locals) (o : string) (rest : list read_result) :
  contains "Ctrl-Y" o = true ->
  contains "Use arrow keys to highlight option" o = true ->
  Re.search user o Re.I = true ->
  Re.search pwd o Re.I = true ->
  sent_user st = false ->
  sent_pass st = false ->
  writes (trace (telnet_cycle self pri alt user pwd st (Data o :: rest)))
  = [(AtCtrlY, (chr 25 ++ LF)%string);
     (AtMenu, ("c" ++ LF)%string);
     (AtTab, TAB);
     (AtUsername, (username self ++ TELNET_RETURN self)%string);
     (AtPassword, (password self ++ TELNET_RETURN self)%string)].
Proof.
  intros C M U P Su Sp. rewrite telnet_cycle_data. cbn [trace writes].
  unfold answer_log, user_due, pass_due.
  rewrite C, M, U, P, Su, Sp. cbn [andb negb app writes].
  now destruct (is_prompt pri alt o).
Qed.

(** With the default patterns the empty fragment is no prompt and gets no
    answer. *)
Lemma cycle_log_default_empty (self : connection) (st : locals) :
  cycle_log self default_username_pattern default_pwd_pattern st ""
  = [EvRead (Data ""); EvSleep 5].
Proof. reflexivity. Qed.

Lemma telnet_default_loop_silent
      (self : connection) (max_loops : Z) (fuel : nat) :
  forall (st : locals) (frags : list string),
    Forall (fun o => o = ""%string) frags ->
    Z.to_nat (max_loops - i st + 1) <= fuel ->
    result (telnet_loop self default_pri_prompt_terminator
              default_alt_prompt_terminator default_username_pattern
              default_pwd_pattern max_loops fuel st (map Data frags))
    = Raise (failure self)
    /\ writes (trace (telnet_loop self default_pri_prompt_terminator
                        default_alt_prompt_terminator
                        default_username_pattern default_pwd_pattern
                        max_loops fuel st (map Data frags)))
       = [(AtReturn, TELNET_RETURN self)]
    /\ reads (trace (telnet_loop self default_pri_prompt_terminator
                       default_alt_prompt_terminator
                       default_username_pattern default_pwd_pattern
                       max_loops fuel st (map Data frags)))
       = Z.to_nat (max_loops - i st + 1) + 1
    /\ closes (trace (telnet_loop self default_pri_prompt_terminator
                        default_alt_prompt_terminator
                        default_username_pattern default_pwd_pattern
                        max_loops fuel st (map Data frags)))
       = 1.
Proof.
  assert (Last : forall msg frags,
             Forall (fun o => o = ""%string) frags ->
             last_try self default_pri_prompt_terminator
               default_alt_prompt_terminator msg (map Data frags)
             = {| result := Raise (failure self);
                  pending := map Data (tl frags);
                  trace := [EvWrite AtReturn (TELNET_RETURN self); EvSleep 5;
                            EvRead (Data ""); EvClose] |}).
  { intros msg [|o rest] Hq; [reflexivity|].
    inversion Hq; subst. reflexivity. }
  induction fuel as [|fuel IH]; intros st frags Hq Hf;
    destruct (Z.leb_spec (i st) max_loops) as [L|G];
    try (exfalso; lia);
    try (rewrite telnet_loop_over, Last by assumption;
         cbn [result trace writes];
         replace (Z.to_nat (max_loops - i st + 1)) with 0 by lia;
         repeat split).
  assert (C : telnet_loop self default_pri_prompt_terminator
                default_alt_prompt_terminator default_username_pattern
                default_pwd_pattern max_loops (S fuel) st (map Data frags)
              = after [EvRead (Data ""); EvSleep 5]
                  (telnet_loop self default_pri_prompt_terminator
                     default_alt_prompt_terminator default_username_pattern
                     default_pwd_pattern max_loops fuel
                     (advance default_username_pattern default_pwd_pattern
                        st "")
                     (map Data (tl frags)))).
  { destruct frags as [|o rest].
    - change (map Data []) with (@nil read_result).
      rewrite telnet_loop_nil, telnet_loop_next
        by (assumption || reflexivity).
      now rewrite cycle_log_default_empty.
    - inversion Hq; subst. cbn [map tl].
      rewrite telnet_loop_next by (assumption || reflexivity).
      now rewrite cycle_log_default_empty. }
  rewrite C. cbn [after result trace].
  destruct (IH (advance default_username_pattern default_pwd_pattern st "")
              (tl frags)) as (R & W & N & K).
  - destruct frags; [constructor | now inversion Hq].
  - cbn [advance i]. lia.
  - rewrite writes_app, reads_app, closes_app, R, W, N, K.
    cbn [advance i]. repeat split.
    change (reads [EvRead (Data ""); EvSleep 5]) with 1. lia.
Qed.

(** X15. A silent device: when every read gives the empty string,
    [telnet_login] with its default patterns writes nothing during the
    loop; after [max_loops] reads it writes one bare line terminator, reads
    once more, closes the connection and raises the authentication error. *)
Theorem telnet_silent_channel
        (self : connection) (max_loops : Z) (frags : list string) :
  Forall (fun o => o = ""%string) frags ->
  result (telnet_login_default self max_loops (map Data frags))
  = Raise (failure self)
  /\ writes (trace (telnet_login_default self max_loops (map Data frags)))
     = [(AtReturn, TELNET_RETURN self)]
  /\ reads (trace (telnet_login_default self max_loops (map Data frags)))
     = Z.to_nat max_loops + 1
  /\ closes (trace (telnet_login_default self max_loops (map Data frags)))
     = 1.
Proof.
  intros H. unfold telnet_login_default. rewrite telnet_login_run.
  cbn [after result trace].
  destruct (telnet_default_loop_silent self max_loops (Z.to_nat max_loops)
              start frags H) as (R & W & N & K).
  - cbn [start i]. lia.
  - rewrite writes_app, reads_app, closes_app, R, W, N, K.
    cbn [start i]. repeat split.
    change (reads [EvSleep 10]) with 0. lia.
Qed.

(** The star of [\s] takes a run of white space. *)
Lemma star_space_run (fl : Re.flags) (k : string -> bool) (ws : string) :
  forall (n : nat) (u : string),
    String.length ws <= n ->
    all_space ws = true ->
    k u = true ->
    (fix iter (n : nat) (s : string) {struct n} : bool :=
       k s
       || match n with
          | O => false
          | S n' =>
              Re.rmatch fl Re.Space s
                (fun s' => (String.length s' <? String.length s)
                           && iter n' s')
          end) n (ws ++ u)%string = true.
Proof.
  induction ws as [|c ws IH]; intros n u Hn Hs Hk.
  - cbn [append]. destruct n; rewrite Hk; reflexivity.
  - cbn [String.length] in Hn. destruct n as [|n]; [lia|].
    cbn [all_space] in Hs. apply andb_true_iff in Hs as [Hc Hs].
    cbn [append Re.rmatch]. rewrite Hc.
    rewrite IH by (assumption || lia).
    cbn [String.length].
    replace (String.length (ws ++ u) <? S (String.length (ws ++ u)))
      with true by (symmetry; apply Nat.ltb_lt; lia).
    apply orb_true_r.
Qed.

Lemma search_after (r : Re.regex) (fl : Re.flags) (s t : string) :
  Re.search r t fl = true -> Re.search r (s ++ t) fl = true.
Proof.
  intros H. induction s as [|c s IH]; [exact H|].
  cbn [append Re.search]. rewrite IH. apply orb_true_r.
Qed.

Lemma length_app_string (a b : string) :
  String.length (a ++ b) = String.length a + String.length b.
Proof. induction a as [|c a IH]; simpl; [reflexivity | now rewrite IH]. Qed.

Lemma terminator_at_line_end (c : ascii) (ws u : string) :
  all_space ws = true ->
  Re.at_eol Re.M u = true ->
  Re.search (Re.Seq (Re.Lit c) (Re.Seq (Re.Star Re.Space) Re.Eol))
            (String c (ws ++ u)) Re.M = true.
Proof.
  intros Hs Hu. cbn [Re.search Re.rmatch].
  unfold Re.chr_eq. cbn [Re.IGNORECASE Re.M]. rewrite Ascii.eqb_refl.
  cbn [andb]. apply orb_true_intro. left.
  refine (star_space_run Re.M
            (fun s' => Re.rmatch Re.M Re.Eol s' (fun _ => true)) ws
            (String.length (ws ++ u)) u _ _ _).
  - rewrite length_app_string. lia.
  - exact Hs.
  - cbn [Re.rmatch]. now rewrite Hu.
Qed.

(** X16. What the default terminators take for the prompt: a "#" or a ">"
    followed by white space only up to the end of the fragment or up to a
    newline, whatever comes before it and whatever follows that newline. *)
Theorem default_prompt_at_line_end (s ws t : string) :
  all_space ws = true ->
  is_prompt default_pri_prompt_terminator default_alt_prompt_terminator
            (s ++ "#" ++ ws)%string = true
  /\ is_prompt default_pri_prompt_terminator default_alt_prompt_terminator
               (s ++ ">" ++ ws)%string = true
  /\ is_prompt default_pri_prompt_terminator default_alt_prompt_terminator
               (s ++ "#" ++ ws ++ LF ++ t)%string = true
  /\ is_prompt default_pri_prompt_terminator default_alt_prompt_terminator
               (s ++ ">" ++ ws ++ LF ++ t)%string = true.
Proof.
  intros H.
  assert (P : forall u, Re.at_eol Re.M u = true ->
                Re.search default_pri_prompt_terminator
                          (s ++ "#" ++ ws ++ u)%string Re.M = true).
  { intros u Hu. apply search_after.
    exact (terminator_at_line_end "#"%char ws u H Hu). }
  assert (A : forall u, Re.at_eol Re.M u = true ->
                Re.search default_alt_prompt_terminator
                          (s ++ ">" ++ ws ++ u)%string Re.M = true).
  { intros u Hu. apply search_after.
    exact (terminator_at_line_end ">"%char ws u H Hu). }
  unfold is_prompt. repeat split.
  - rewrite <- (string_app_nil_r ws). now rewrite P.
  - rewrite <- (string_app_nil_r ws). rewrite A by reflexivity.
    apply orb_true_r.
  - now rewrite P.
  - rewrite A by reflexivity. apply orb_true_r.
Qed.

(* ================================================================= *)
(** ** The further theorems at concrete runs *)

Lemma ssh_end_of_stream_witness :
  Forall goes_on ["Enter Ctrl-Y to begin."; ""; "sername:"]%string
  /\ 3 <= 12
  /\ result (special_login_handler sw
               [Data "Enter Ctrl-Y to begin."; Data ""; Data "sername:";
                EOF; Data "ssword:"])
     = Raise EOFError
  /\ pending (special_login_handler sw
                [Data "Enter Ctrl-Y to begin."; Data ""; Data "sername:";
                 EOF; Data "ssword:"])
     = [Data "ssword:"].
Proof.
  assert (H1 : Forall goes_on
                 ["Enter Ctrl-Y to begin."; ""; "sername:"]%string)
    by (repeat constructor; (now left) || (now right)).
  assert (H2 : 3 <= 12) by lia.
  destruct (ssh_end_of_stream sw
              ["Enter Ctrl-Y to begin."; ""; "sername:"]%string
              [Data "ssword:"] H1 H2) as (E & _).
  cbn [map app] in E. rewrite E. repeat split; assumption.
Defined.

Lemma ssh_password_ends_login_witness :
  Forall goes_on ["Enter Ctrl-Y to begin."; "Username and Password"]%string
  /\ 2 <= 12
  /\ contains "sername" "Enter Password:" = false
  /\ contains "ssword" "Enter Password:" = true
  /\ pass_writes
       (trace (special_login_handler sw
                 [Data "Enter Ctrl-Y to begin.";
                  Data "Username and Password"; Data "Enter Password:";
                  Data "Enter Password:"]))
     = [(AtPassword, ("secret" ++ LF)%string)]
  /\ pending (special_login_handler sw
                [Data "Enter Ctrl-Y to begin.";
                 Data "Username and Password"; Data "Enter Password:";
                 Data "Enter Password:"])
     = [Data "Enter Password:"].
Proof.
  assert (H1 : Forall goes_on
                 ["Enter Ctrl-Y to begin."; "Username and Password"]%string)
    by (repeat constructor; (now left) || (now right)).
  assert (H2 : 2 <= 12) by lia.
  destruct (ssh_password_ends_login sw
              ["Enter Ctrl-Y to begin."; "Username and Password"]%string
              "Enter Password:"%string [Data "Enter Password:"]
              H1 H2 eq_refl eq_refl) as (E & W).
  cbn [map app] in E, W. rewrite E.
  repeat split; assumption || reflexivity.
Defined.

Lemma ssh_silent_channel_witness :
  Forall (fun o => o = ""%string) [""; ""]%string
  /\ writes (trace (special_login_handler sw [Data ""; Data ""]))
     = repeat (AtReturn, LF) 13
  /\ slept (trace (special_login_handler sw [Data ""; Data ""])) = 130.
Proof.
  assert (H1 : Forall (fun o => o = ""%string) [""; ""]%string)
    by (repeat constructor).
  destruct (ssh_silent_channel sw [""; ""]%string H1) as (W & S & _).
  repeat split; assumption.
Defined.

Lemma ssh_username_repeated_witness :
  Forall (fun o => contains "sername" o = true)
         ["Username:"; "Username:"; "Enter Username:"]%string
  /\ user_writes
       (trace (special_login_handler sw
                 [Data "Username:"; Data "Username:";
                  Data "Enter Username:"]))
     = [(AtUsername, ("admin" ++ LF)%string);
        (AtUsername, ("admin" ++ LF)%string);
        (AtUsername, ("admin" ++ LF)%string)].
Proof.
  assert (H1 : Forall (fun o => contains "sername" o = true)
                 ["Username:"; "Username:"; "Enter Username:"]%string)
    by (repeat constructor).
  split; [exact H1|].
  exact (ssh_username_repeated sw
           ["Username:"; "Username:"; "Enter Username:"]%string H1).
Defined.

Lemma telnet_transcript_is_what_was_read_witness :
  result (telnet_login_default sw 20
            [Data "Enter Username:"; Data ""; Data "Enter Password:";
             Data "switch#"])
  = Ok "Enter Username:Enter Password:switch#"%string
  /\ "Enter Username:Enter Password:switch#"%string
     = cat (fragments_read
              (trace (telnet_login_default sw 20
                        [Data "Enter Username:"; Data "";
                         Data "Enter Password:"; Data "switch#"]))).
Proof.
  assert (H1 : result (telnet_login_default sw 20
                         [Data "Enter Username:"; Data "";
                          Data "Enter Password:"; Data "switch#"])
               = Ok "Enter Username:Enter Password:switch#"%string)
    by reflexivity.
  split; [exact H1|].
  exact (telnet_transcript_is_what_was_read sw
           default_pri_prompt_terminator default_alt_prompt_terminator
           default_username_pattern default_pwd_pattern 20 _ _ H1).
Defined.

Lemma telnet_credentials_only_when_prompted_witness :
  (user_writes (trace (telnet_login_default sw 20
                         [Data "Enter Username:"; Data "switch>"])) <> []
   /\ exists o,
       In (EvRead (Data o))
          (trace (telnet_login_default sw 20
                    [Data "Enter Username:"; Data "switch>"]))
       /\ Re.search default_username_pattern o Re.I = true)
  /\ (pass_writes (trace (telnet_login_default sw 20
                            [Data "enter password"; Data "switch>"])) <> []
      /\ exists o,
          In (EvRead (Data o))
             (trace (telnet_login_default sw 20
                       [Data "enter password"; Data "switch>"]))
          /\ Re.search default_pwd_pattern o Re.I = true).
Proof.
  assert (H1 : user_writes
                 (trace (telnet_login_default sw 20
                           [Data "Enter Username:"; Data "switch>"])) <> [])
    by (vm_compute; discriminate).
  assert (H2 : pass_writes
                 (trace (telnet_login_default sw 20
                           [Data "enter password"; Data "switch>"])) <> [])
    by (vm_compute; discriminate).
  destruct (telnet_credentials_only_when_prompted sw
              default_pri_prompt_terminator default_alt_prompt_terminator
              default_username_pattern default_pwd_pattern 20
              [Data "Enter Username:"; Data "switch>"]) as (U & _).
  destruct (telnet_credentials_only_when_prompted sw
              default_pri_prompt_terminator default_alt_prompt_terminator
              default_username_pattern default_pwd_pattern 20
              [Data "enter password"; Data "switch>"]) as (_ & P).
  split; split; auto.
Defined.

Lemma telnet_last_try_end_of_stream_witness :
  Forall (fun f => is_prompt default_pri_prompt_terminator
                     default_alt_prompt_terminator f = false)
         ["Enter Username:"; ""]%string
  /\ 2 = Z.to_nat 2
  /\ result (telnet_login_default sw 2
               [Data "Enter Username:"; Data ""; EOF])
     = Raise EOFError
  /\ closes (trace (telnet_login_default sw 2
                      [Data "Enter Username:"; Data ""; EOF])) = 0.
Proof.
  assert (H1 : Forall (fun f => is_prompt default_pri_prompt_terminator
                                  default_alt_prompt_terminator f = false)
                 ["Enter Username:"; ""]%string)
    by (repeat constructor).
  destruct (telnet_last_try_end_of_stream sw
              default_pri_prompt_terminator default_alt_prompt_terminator
              default_username_pattern default_pwd_pattern 2
              ["Enter Username:"; ""]%string [] H1 eq_refl) as (E & C).
  cbn [map app] in E, C. unfold telnet_login_default. rewrite E.
  repeat split; assumption || reflexivity.
Defined.

Lemma telnet_no_cycles_witness :
  (0 <= 0)%Z
  /\ reads (trace (telnet_login_default sw 0
                     [Data "Enter Username:"; Data "Enter Password:"])) = 1
  /\ writes (trace (telnet_login_default sw 0
                      [Data "Enter Username:"; Data "Enter Password:"]))
     = [(AtReturn, (CR ++ LF)%string)].
Proof.
  assert (H1 : (0 <= 0)%Z) by lia.
  split; [exact H1|].
  exact (telnet_no_cycles sw default_pri_prompt_terminator
           default_alt_prompt_terminator default_username_pattern
           default_pwd_pattern 0
           [Data "Enter Username:"; Data "Enter Password:"] H1).
Defined.

Lemma telnet_ctrl_y_first_witness :
  contains "Ctrl-Y" "Enter Ctrl-Y to begin. Enter Username:" = true
  /\ exists more,
      writes (trace (telnet_cycle sw default_pri_prompt_terminator
                       default_alt_prompt_terminator
                       default_username_pattern default_pwd_pattern start
                       [Data "Enter Ctrl-Y to begin. Enter Username:"]))
      = (AtCtrlY, (chr 25 ++ LF)%string) :: more.
Proof.
  split; [reflexivity|].
  exact (telnet_ctrl_y_first sw default_pri_prompt_terminator
           default_alt_prompt_terminator default_username_pattern
           default_pwd_pattern start
           "Enter Ctrl-Y to begin. Enter Username:"%string [] eq_refl).
Defined.

Lemma telnet_all_answers_in_one_cycle_witness :
  writes
    (trace
       (telnet_cycle sw default_pri_prompt_terminator
          default_alt_prompt_terminator default_username_pattern
          default_pwd_pattern start
          [Data "Ctrl-Y Use arrow keys to highlight option Enter Username Enter Password"]))
  = [(AtCtrlY, (chr 25 ++ LF)%string);
     (AtMenu, ("c" ++ LF)%string);
     (AtTab, TAB);
     (AtUsername, ("admin" ++ CR ++ LF)%string);
     (AtPassword, ("secret" ++ CR ++ LF)%string)].
Proof.
  exact (telnet_all_answers_in_one_cycle sw default_pri_prompt_terminator
           default_alt_prompt_terminator default_username_pattern
           default_pwd_pattern start
           "Ctrl-Y Use arrow keys to highlight option Enter Username Enter Password"%string
           [] eq_refl eq_refl eq_refl eq_refl eq_refl eq_refl).
Defined.

Lemma telnet_silent_channel_witness :
  Forall (fun o => o = ""%string) [""]%string
  /\ result (telnet_login_default sw 20 [Data ""]) = Raise (failure sw)
  /\ reads (trace (telnet_login_default sw 20 [Data ""])) = 21.
Proof.
  assert (H1 : Forall (fun o => o = ""%string) [""]%string)
    by (repeat constructor).
  destruct (telnet_silent_channel sw 20 [""]%string H1) as (R & _ & N & _).
  repeat split; assumption.
Defined.

Lemma default_prompt_at_line_end_witness :
  all_space (" " ++ TAB) = true
  /\ is_prompt default_pri_prompt_terminator default_alt_prompt_terminator
       ("Last login: today" ++ LF ++ "ERS-5520#" ++ (" " ++ TAB))%string
     = true
  /\ is_prompt default_pri_prompt_terminator default_alt_prompt_terminator
       ("<banner>" ++ (" " ++ TAB) ++ LF ++ "Enter Username:")%string
     = true.
Proof.
  assert (H1 : all_space (" " ++ TAB) = true) by reflexivity.
  destruct (default_prompt_at_line_end
              ("Last login: today" ++ LF ++ "ERS-5520")%string
              (" " ++ TAB)%string ""%string H1) as (A & _).
  destruct (default_prompt_at_line_end "<banner"%string
              (" " ++ TAB)%string "Enter Username:"%string H1)
    as (_ & _ & _ & B).
  repeat split; assumption.
Defined.
